(** * Student attendance API: attendance ledger, statistics and token resolution

    A shallow embedding of [app/routers/attendance.py], [app/utils/jwt.py],
    [app/models/attendance.py] and [app/schemas/attendance.py].

    - The relational store reached through the SQLAlchemy [Session] is a
      record of two tables, each a list of rows in insertion order.
    - A route handler is a computation in a state-and-exception monad over
      that store: it either returns a value or raises an [HTTPException],
      and in both cases yields the store it leaves behind.
    - [datetime] values are seconds, [date] values are whole days;
      [func.date] and [datetime.date()] are the day of a timestamp. A handler
      is given the reading of each clock it consults: the application's
      [datetime.now()] and the store's [func.now()] are separate readings. *)

From Stdlib Require Import ZArith Lia Bool Permutation.
From Stdlib Require Import Floats.SpecFloat.
From stdpp Require Import gmap strings list fin_maps pretty.

Local Open Scope Z_scope.

(** ** Dates and times *)

Definition datetime := Z.
Definition date := Z.

Definition seconds_per_day : Z := 86400.

(** [func.date(ts)] in a query and [ts.date()] in Python. *)
Definition func_date (ts : datetime) : date := ts / seconds_per_day.

(** ** app/models *)

(** [class AttendanceStatus(str, enum.Enum)] *)
Inductive AttendanceStatus : Type := PRESENT | ABSENT | LATE | EXCUSED.

#[global] Instance AttendanceStatus_eq_dec : EqDecision AttendanceStatus.
Proof. solve_decision. Defined.

(** The string value carried by each member of the enumeration. *)
Definition AttendanceStatus_value (s : AttendanceStatus) : string :=
  match s with
  | PRESENT => "present"
  | ABSENT => "absent"
  | LATE => "late"
  | EXCUSED => "excused"
  end.

Module User.
(** Modelled from the spec: [app/models/user.py] is not among the source
    files; the columns are those of the User entity of the data model
    (identifier, email, username, optional full name, password hash,
    [is_teacher] flag, [is_active] flag, creation timestamp). *)
Record t : Type := mk {
  id : Z;
  email : string;
  username : string;
  full_name : option string;
  hashed_password : string;
  is_teacher : bool;
  is_active : bool;
  created_at : datetime
}.
End User.

Module Attendance.
(** [class Attendance(Base)], table [attendance]. *)
Record t : Type := mk {
  id : Z;
  user_id : Z;
  class_name : string;
  status : AttendanceStatus;
  check_in_time : datetime;
  check_out_time : option datetime;
  notes : option string;
  marked_by : option Z
}.
End Attendance.

(** ** app/schemas/attendance.py *)

Module AttendanceCheckIn.
(** [class AttendanceCheckIn(AttendanceBase)]; [status] defaults to
    [PRESENT] and [notes] to [None] when the body omits them. *)
Record t : Type := mk {
  class_name : string;
  status : AttendanceStatus;
  notes : option string;
  user_id : Z
}.
End AttendanceCheckIn.

Module AttendanceMarkByTeacher.
(** [class AttendanceMarkByTeacher(BaseModel)] *)
Record t : Type := mk {
  user_id : Z;
  class_name : string;
  status : AttendanceStatus;
  notes : option string
}.
End AttendanceMarkByTeacher.

Module AttendanceWithUser.
(** The dictionary built per row by [get_class_attendance_today]; its keys
    are the fields of [class AttendanceWithUser(AttendanceResponse)]. *)
Record t : Type := mk {
  id : Z;
  user_id : Z;
  class_name : string;
  status : AttendanceStatus;
  check_in_time : datetime;
  check_out_time : option datetime;
  notes : option string;
  marked_by : option Z;
  username : string;
  full_name : option string
}.
End AttendanceWithUser.

(** ** The store behind [db: Session] *)

Record Db : Type := mkDb {
  tbl_users : list User.t;
  tbl_attendance : list Attendance.t
}.

(** ** HTTP errors and the handler monad *)

Record HTTPException : Type := mkHTTPException {
  status_code : Z;
  detail : string
}.

Definition HTTP_400_BAD_REQUEST : Z := 400.
Definition HTTP_401_UNAUTHORIZED : Z := 401.
Definition HTTP_403_FORBIDDEN : Z := 403.
Definition HTTP_404_NOT_FOUND : Z := 404.

Inductive result (A : Type) : Type :=
| Return (a : A)
| Raise (e : HTTPException).
Arguments Return {A} a.
Arguments Raise {A} e.

(** A handler reads and writes the store and ends in a value or an error. *)
Definition Handler (A : Type) : Type := Db -> result A * Db.

Definition ret {A} (a : A) : Handler A := fun db => (Return a, db).

Definition raise {A} (code : Z) (msg : string) : Handler A :=
  fun db => (Raise (mkHTTPException code msg), db).

Definition bind {A B} (m : Handler A) (k : A -> Handler B) : Handler B :=
  fun db =>
    match m db with
    | (Return a, db') => k a db'
    | (Raise e, db') => (Raise e, db')
    end.

Notation "'do' x <- m ; k" := (bind m (fun x => k))
  (at level 10, x name, m at level 100, k at level 200).

(** The first row of [users] whose [id] is [uid], if there is one. *)
Definition lookup_user (db : Db) (uid : Z) : option User.t :=
  head (filter (fun u => User.id u = uid) (tbl_users db)).

(** [db.query(User).filter(User.id == uid).first()] *)
Definition query_user_first (uid : Z) : Handler (option User.t) :=
  fun db => (Return (lookup_user db uid), db).

(** [db.query(Attendance).filter(...).all()] for a decidable condition. *)
Definition query_attendance_all (P : Attendance.t -> Prop)
    `{forall r, Decision (P r)} : Handler (list Attendance.t) :=
  fun db => (Return (filter P (tbl_attendance db)), db).

(** [db.query(Attendance).filter(...).first()] *)
Definition query_attendance_first (P : Attendance.t -> Prop)
    `{forall r, Decision (P r)} : Handler (option Attendance.t) :=
  fun db => (Return (head (filter P (tbl_attendance db))), db).

(** The primary key the store gives to the next inserted row. *)
Definition next_attendance_id (rows : list Attendance.t) : Z :=
  1 + foldr Z.max 0 (Attendance.id <$> rows).

(** [db.add(row); db.commit(); db.refresh(row)]: the row is appended with a
    fresh primary key and, [check_in_time] having [server_default=func.now()],
    with the store's current time [now]; the refreshed row is handed back. *)
Definition add_commit_refresh
    (user_id : Z) (class_name : string) (status : AttendanceStatus)
    (notes : option string) (marked_by : option Z) (now : datetime)
  : Handler Attendance.t :=
  fun db =>
    let row := Attendance.mk (next_attendance_id (tbl_attendance db))
                 user_id class_name status now None notes marked_by in
    (Return row, mkDb (tbl_users db) (tbl_attendance db ++ [row])).

(** ** app/routers/attendance.py: writes *)

(** The condition of the duplicate check of [check_in]. *)
Definition same_class_day (uid : Z) (cls : string) (day : date)
    (r : Attendance.t) : Prop :=
  Attendance.user_id r = uid /\ Attendance.class_name r = cls
  /\ func_date (Attendance.check_in_time r) = day.

#[global] Instance same_class_day_dec uid cls day r :
  Decision (same_class_day uid cls day r).
Proof. unfold same_class_day. apply _. Defined.

(** [POST /attendance/check-in]. [now] is what [datetime.now()] reads when
    the handler computes [today]; [db_now] is what the store's [func.now()]
    reads when it stamps the inserted row. *)
Definition check_in (attendance : AttendanceCheckIn.t) (now db_now : datetime)
  : Handler Attendance.t :=
  do user <- query_user_first (AttendanceCheckIn.user_id attendance);
  match user with
  | None => raise HTTP_404_NOT_FOUND "User not found"
  | Some _ =>
    let today := func_date now in
    do existing <- query_attendance_first
                     (same_class_day (AttendanceCheckIn.user_id attendance)
                                     (AttendanceCheckIn.class_name attendance)
                                     today);
    match existing with
    | Some _ => raise HTTP_400_BAD_REQUEST "Already checked in for this class today"
    | None =>
      add_commit_refresh
        (AttendanceCheckIn.user_id attendance)
        (AttendanceCheckIn.class_name attendance)
        (AttendanceCheckIn.status attendance)
        (AttendanceCheckIn.notes attendance)
        None db_now
    end
  end.

(** [POST /attendance/mark?teacher_id=...]. The handler reads no clock of
    its own: [now] is what the store's [func.now()] reads when it stamps the
    inserted row. *)
Definition mark_attendance (attendance : AttendanceMarkByTeacher.t)
    (teacher_id : Z) (now : datetime) : Handler Attendance.t :=
  do teacher <- query_user_first teacher_id;
  if match teacher with
     | None => true
     | Some t => negb (User.is_teacher t)
     end
  then raise HTTP_403_FORBIDDEN "Only teachers can mark attendance"
  else
    do student <- query_user_first (AttendanceMarkByTeacher.user_id attendance);
    match student with
    | None => raise HTTP_404_NOT_FOUND "Student not found"
    | Some _ =>
      add_commit_refresh
        (AttendanceMarkByTeacher.user_id attendance)
        (AttendanceMarkByTeacher.class_name attendance)
        (AttendanceMarkByTeacher.status attendance)
        (AttendanceMarkByTeacher.notes attendance)
        (Some teacher_id) now
    end.

(** ** app/routers/attendance.py: listings *)

(** Truth value of an [Optional[str]] query parameter: [None] and the empty
    string are both false. *)
Definition str_param_given (s : option string) : option string :=
  match s with
  | Some c => if decide (c = "") then None else Some c
  | None => None
  end.

(** The two optional conditions [get_all_attendance] adds to its query. *)
Definition class_condition (class_name : option string) (r : Attendance.t) : Prop :=
  match str_param_given class_name with
  | Some c => Attendance.class_name r = c
  | None => True
  end.

Definition date_condition (date_filter : option date) (r : Attendance.t) : Prop :=
  match date_filter with
  | Some d => func_date (Attendance.check_in_time r) = d
  | None => True
  end.

#[global] Instance class_condition_dec c r : Decision (class_condition c r).
Proof. unfold class_condition. destruct (str_param_given c); apply _. Defined.

#[global] Instance date_condition_dec d r : Decision (date_condition d r).
Proof. unfold date_condition. destruct d; apply _. Defined.

(** [query.offset(skip).limit(limit)] for non-negative [skip] and [limit]. *)
Definition offset_limit {A} (skip limit : Z) (rows : list A) : list A :=
  take (Z.to_nat limit) (drop (Z.to_nat skip) rows).

(** [GET /attendance/]; [skip] defaults to 0 and [limit] to 100. *)
Definition get_all_attendance (skip limit : Z) (class_name : option string)
    (date_filter : option date) : Handler (list Attendance.t) :=
  fun db =>
    let query := tbl_attendance db in
    let query := filter (class_condition class_name) query in
    let query := filter (date_condition date_filter) query in
    (Return (offset_limit skip limit query), db).

(** [GET /attendance/user/{user_id}] *)
Definition get_user_attendance (user_id : Z) : Handler (list Attendance.t) :=
  do user <- query_user_first user_id;
  match user with
  | None => raise HTTP_404_NOT_FOUND "User not found"
  | Some _ => query_attendance_all (fun r => Attendance.user_id r = user_id)
  end.

(** [db.query(Attendance, User).join(User, Attendance.user_id == User.id)
       .filter(Attendance.class_name == class_name,
               func.date(Attendance.check_in_time) == today).all()] *)
Definition query_class_today_joined (class_name : string) (today : date)
    (db : Db) : list (Attendance.t * User.t) :=
  att ← tbl_attendance db;
  user ← tbl_users db;
  if decide (Attendance.user_id att = User.id user
             /\ Attendance.class_name att = class_name
             /\ func_date (Attendance.check_in_time att) = today)
  then [(att, user)] else [].

(** The body of the [for att, user in attendance] loop. *)
Definition today_row (att : Attendance.t) (user : User.t) : AttendanceWithUser.t :=
  AttendanceWithUser.mk
    (Attendance.id att) (Attendance.user_id att) (Attendance.class_name att)
    (Attendance.status att) (Attendance.check_in_time att)
    (Attendance.check_out_time att) (Attendance.notes att)
    (Attendance.marked_by att) (User.username user) (User.full_name user).

(** The local variable [result] of [get_class_attendance_today] when the
    loop has run. *)
Definition class_today_result (class_name : string) (now : datetime) (db : Db)
  : list AttendanceWithUser.t :=
  let today := func_date now in
  let attendance := query_class_today_joined class_name today db in
  foldl (fun result '(att, user) => result ++ [today_row att user]) [] attendance.

(** [GET /attendance/class/{class_name}/today]. The value a Python function
    hands back is [Some v] for [return v] and [None] for Python's [None],
    which is also what a body yields when it ends without a [return]. The
    body of this handler ends after the loop: the next statement of the file
    is the decorator of [get_user_attendance_stats]. *)
Definition get_class_attendance_today (class_name : string) (now : datetime)
  : Handler (option (list AttendanceWithUser.t)) :=
  fun db =>
    let result := class_today_result class_name now db in
    (Return None, db).

(** ** Python numbers and their text

    [int] is [Z]. [float] is an IEEE 754 binary64 value, a [spec_float] with
    53 bits of precision. The operations below are the ones the statistics
    handlers apply: true division of two [int]s, multiplication, [round] to
    a number of decimals and the text [repr] gives (what an f-string inserts
    for a float). *)

#[global] Instance spec_float_eq_dec : EqDecision spec_float.
Proof. solve_decision. Defined.

Module PyFloat.
Definition prec : Z := 53.
Definition emax : Z := 1024.

(** The double nearest to the rational [n / d] (ties to even). *)
Definition of_ratio (negative : bool) (n d : positive) : spec_float :=
  let '(q, e, l) := SFdiv_core_binary prec emax (Zpos n) 0 (Zpos d) 0 in
  binary_round_aux prec emax negative q e l.

(** [float(n)] *)
Definition of_int (n : Z) : spec_float := binary_normalize prec emax n 0 false.

(** [a / b] on two [int]s, for [b <> 0]. *)
Definition int_truediv (a b : Z) : spec_float :=
  let negative := xorb (a <? 0) (b <? 0) in
  match a, b with
  | _, Z0 => S754_nan
  | Z0, _ => S754_zero negative
  | (Zpos n | Zneg n), (Zpos d | Zneg d) => of_ratio negative n d
  end.

Definition mul (x y : spec_float) : spec_float := SFmul prec emax x y.

Definition div_half_even (n d : Z) : Z :=
  let q := n / d in
  match (2 * (n mod d)) ?= d with
  | Lt => q
  | Gt => q + 1
  | Eq => if Z.even q then q else q + 1
  end.

(** The decimal [c * 10^sc] as a double. *)
Definition of_decimal (negative : bool) (c : Z) (sc : Z) : spec_float :=
  match c with
  | Zpos p =>
    if 0 <=? sc then of_ratio negative (p * Z.to_pos (10 ^ sc)) 1
    else of_ratio negative p (Z.to_pos (10 ^ (- sc)))
  | _ => S754_zero negative
  end.

(** [round(x, ndigits)] for [0 <= ndigits], when the result is in range:
    [x] is rounded, half to even on its exact value, to [ndigits] decimals
    and the decimal obtained is read back as a double. *)
Definition round (x : spec_float) (ndigits : Z) : spec_float :=
  match x with
  | S754_finite s m e =>
    let scaled := Zpos m * 10 ^ ndigits in
    let q := match e with
             | Zneg k => div_half_even scaled (2 ^ Zpos k)
             | _ => scaled * 2 ^ e
             end in
    of_decimal s q (- ndigits)
  | _ => x
  end.

(** x = n / d exactly, for a finite positive mantissa and exponent. *)
Definition numer (m : positive) (e : Z) : Z := Zpos m * 2 ^ Z.max e 0.
Definition denom (e : Z) : Z := 2 ^ Z.max (- e) 0.

(** [n / d < 10^p] *)
Definition below_pow10 (n d p : Z) : bool :=
  if 0 <=? p then n <? d * 10 ^ p else n * 10 ^ (- p) <? d.

Fixpoint search_decpt (fuel : nat) (n d p : Z) : Z :=
  match fuel with
  | O => p
  | S fuel' => if below_pow10 n d p then p else search_decpt fuel' n d (p + 1)
  end.

(** The least [p] with [n / d < 10^p]. *)
Definition decimal_point (n d : Z) : Z :=
  let e2 := Z.log2 n - Z.log2 d in
  search_decpt 4 n d ((e2 * 30103) / 100000 - 1).

(** The [k]-digit decimal nearest to [n / d] that reads back as [x]. *)
Definition candidate (x : spec_float) (n d decpt k : Z) : option (Z * Z) :=
  let sc := decpt - k in
  let '(sn, sd) := if 0 <=? sc then (n, d * 10 ^ sc) else (n * 10 ^ (- sc), d) in
  let lo := sn / sd in
  let hi := lo + 1 in
  let ok c := bool_decide (of_decimal false c sc = x) in
  let nearer_lo :=
    match (2 * sn) ?= (lo + hi) * sd with
    | Lt => true
    | Gt => false
    | Eq => Z.even lo
    end in
  match ok lo, ok hi with
  | true, true => Some (if nearer_lo then lo else hi, sc)
  | true, false => Some (lo, sc)
  | false, true => Some (hi, sc)
  | false, false => None
  end.

Fixpoint shortest_from (fuel : nat) (x : spec_float) (n d decpt k : Z) : Z * Z :=
  match fuel with
  | O => (0, 0)
  | S fuel' =>
    match candidate x n d decpt k with
    | Some r => r
    | None => shortest_from fuel' x n d decpt (k + 1)
    end
  end.

Fixpoint strip_zeros (fuel : nat) (c sc : Z) : Z * Z :=
  match fuel with
  | O => (c, sc)
  | S fuel' => if (c mod 10 =? 0) && negb (c =? 0)
               then strip_zeros fuel' (c / 10) (sc + 1) else (c, sc)
  end.

Definition zeros (n : Z) : string := String.concat "" (replicate (Z.to_nat n) "0").

Definition substring_from (i : nat) (s : string) : string :=
  String.substring i (String.length s - i) s.

(** [repr] of the digits [ds] with the decimal point after [decpt] of them. *)
Definition format_short (ds : string) (decpt : Z) : string :=
  let len := Z.of_nat (String.length ds) in
  if (decpt <=? -4) || (16 <? decpt) then
    let e := decpt - 1 in
    let mant := String.substring 0 1 ds +:+
                (if 1 <? len then "." +:+ substring_from 1 ds else "") in
    let es := pretty (Z.abs e) in
    mant +:+ "e" +:+ (if e <? 0 then "-" else "+") +:+
    (if Z.abs e <? 10 then "0" +:+ es else es)
  else if decpt <=? 0 then "0." +:+ zeros (- decpt) +:+ ds
  else if len <=? decpt then ds +:+ zeros (decpt - len) +:+ ".0"
  else String.substring 0 (Z.to_nat decpt) ds +:+ "." +:+
       substring_from (Z.to_nat decpt) ds.

(** [repr(x)], which is also [str(x)] and [format(x, "")]. *)
Definition repr (x : spec_float) : string :=
  match x with
  | S754_nan => "nan"
  | S754_infinity s => if s then "-inf" else "inf"
  | S754_zero s => if s then "-0.0" else "0.0"
  | S754_finite s m e =>
    let n := numer m e in
    let d := denom e in
    let decpt := decimal_point n d in
    let '(c, sc) := shortest_from 17 (S754_finite false m e) n d decpt 1 in
    let '(c, sc) := strip_zeros 20 c sc in
    let ds := pretty c in
    (if s then "-" else "") +:+ format_short ds (Z.of_nat (String.length ds) + sc)
  end.
End PyFloat.

(** A value stored under a key of a JSON-like response dictionary. *)
Inductive pyvalue : Type :=
| VNone
| VInt (n : Z)
| VFloat (x : spec_float)
| VStr (s : string).

(** [f"{v}"] *)
Definition format_value (v : pyvalue) : string :=
  match v with
  | VNone => "None"
  | VInt n => pretty n
  | VFloat x => PyFloat.repr x
  | VStr s => s
  end.

Definition optional_str (s : option string) : pyvalue :=
  match s with
  | Some v => VStr v
  | None => VNone
  end.

(** ** app/routers/attendance.py: statistics *)

(** [len([r for r in all_records if r.status == s])] *)
Definition count_status (s : AttendanceStatus) (all_records : list Attendance.t) : Z :=
  Z.of_nat (length (filter (fun r => Attendance.status r = s) all_records)).

(** [round((present + late) / total * 100, 2) if total > 0 else 0] *)
Definition attendance_rate (present late total : Z) : pyvalue :=
  if 0 <? total
  then VFloat (PyFloat.round
                 (PyFloat.mul (PyFloat.int_truediv (present + late) total)
                              (PyFloat.of_int 100))
                 2)
  else VInt 0.

(** [GET /attendance/stats/user/{user_id}] *)
Definition get_user_attendance_stats (user_id : Z)
  : Handler (gmap string pyvalue) :=
  do user <- query_user_first user_id;
  match user with
  | None => raise HTTP_404_NOT_FOUND "User not found"
  | Some user =>
    do all_records <- query_attendance_all (fun r => Attendance.user_id r = user_id);
    match all_records with
    | [] =>
      ret (list_to_map
             [("user_id", VInt user_id);
              ("username", VStr (User.username user));
              ("total_records", VInt 0);
              ("present", VInt 0);
              ("absent", VInt 0);
              ("late", VInt 0);
              ("excused", VInt 0);
              ("attendance_rate", VInt 0)])
    | _ :: _ =>
      let present := count_status PRESENT all_records in
      let absent := count_status ABSENT all_records in
      let late := count_status LATE all_records in
      let excused := count_status EXCUSED all_records in
      let total := Z.of_nat (length all_records) in
      let attendance_rate := attendance_rate present late total in
      ret (list_to_map
             [("user_id", VInt user_id);
              ("username", VStr (User.username user));
              ("full_name", optional_str (User.full_name user));
              ("total_records", VInt total);
              ("present", VInt present);
              ("absent", VInt absent);
              ("late", VInt late);
              ("excused", VInt excused);
              ("attendance_rate", VStr (format_value attendance_rate +:+ "%"))])
    end
  end.

(** [len(set([r.user_id for r in all_records]))] *)
Definition unique_students (all_records : list Attendance.t) : Z :=
  Z.of_nat (size (list_to_set (Attendance.user_id <$> all_records) : gset Z)).

(** [GET /attendance/stats/class/{class_name}] *)
Definition get_class_attendance_stats (class_name : string)
  : Handler (gmap string pyvalue) :=
  do all_records <- query_attendance_all (fun r => Attendance.class_name r = class_name);
  match all_records with
  | [] =>
    ret (list_to_map
           [("class_name", VStr class_name);
            ("total_records", VInt 0);
            ("unique_students", VInt 0);
            ("present", VInt 0);
            ("absent", VInt 0);
            ("late", VInt 0);
            ("excused", VInt 0)])
  | _ :: _ =>
    let present := count_status PRESENT all_records in
    let absent := count_status ABSENT all_records in
    let late := count_status LATE all_records in
    let excused := count_status EXCUSED all_records in
    let unique_students := unique_students all_records in
    ret (list_to_map
           [("class_name", VStr class_name);
            ("total_records", VInt (Z.of_nat (length all_records)));
            ("unique_students", VInt unique_students);
            ("present", VInt present);
            ("absent", VInt absent);
            ("late", VInt late);
            ("excused", VInt excused)])
  end.

(** ** app/utils/jwt.py *)

(** The exceptions of [jose]: [ExpiredSignatureError] and [JWTClaimsError]
    are subclasses of [JWTError], so [except JWTError] catches all three. *)
Inductive JWTError : Type :=
| JWTError_malformed
| ExpiredSignatureError
| JWTClaimsError.

(** What the body of a [try] can end in. *)
Inductive try_outcome (A : Type) : Type :=
| Completed (a : A)
| RaisedHTTP (e : HTTPException)
| RaisedJWT (e : JWTError).
Arguments Completed {A} a.
Arguments RaisedHTTP {A} e.
Arguments RaisedJWT {A} e.

Section Jwt.
(** [jwt.decode(token, SECRET_KEY, algorithms=[ALGORITHM])] at the time of
    the request: the claims of the token, or the [JWTError] raised when
    the token cannot be decoded, its signature does not verify, or its
    [exp] claim has passed. The claims are read at the type the source
    gives them ([user_id: int = payload.get("sub")]). *)
Variable jwt_decode : string -> gmap string Z + JWTError.

(** The body of the [try] block of [verify_token]. *)
Definition verify_token_try (token : string) : try_outcome Z :=
  match jwt_decode token with
  | inr e => RaisedJWT e
  | inl payload =>
    match payload !! "sub" with
    | None =>
      RaisedHTTP (mkHTTPException HTTP_401_UNAUTHORIZED "Could not validate credentials")
    | Some user_id => Completed user_id
    end
  end.

(** [verify_token]: the [except JWTError] clause turns a decoding error
    into a 401; an [HTTPException] raised inside the [try] passes through. *)
Definition verify_token (token : string) : Handler Z :=
  match verify_token_try token with
  | Completed user_id => ret user_id
  | RaisedHTTP e => raise (status_code e) (detail e)
  | RaisedJWT _ => raise HTTP_401_UNAUTHORIZED "Could not validate credentials"
  end.

(** [get_current_user] *)
Definition get_current_user (token : string) : Handler User.t :=
  do user_id <- verify_token token;
  do user <- query_user_first user_id;
  match user with
  | None => raise HTTP_401_UNAUTHORIZED "User not found"
  | Some user => ret user
  end.

(** [get_current_active_user] *)
Definition get_current_active_user (token : string) : Handler User.t :=
  do current_user <- get_current_user token;
  if negb (User.is_active current_user)
  then raise HTTP_400_BAD_REQUEST "Inactive user"
  else ret current_user.

(** [require_teacher] *)
Definition require_teacher (token : string) : Handler User.t :=
  do current_user <- get_current_active_user token;
  if negb (User.is_teacher current_user)
  then raise HTTP_403_FORBIDDEN "Only teachers can perform this action"
  else ret current_user.
End Jwt.

(** ** Requests that write to the ledger, and runs of them *)

Inductive write_request : Type :=
| CheckIn (attendance : AttendanceCheckIn.t) (now db_now : datetime)
| Mark (attendance : AttendanceMarkByTeacher.t) (teacher_id : Z) (now : datetime).

(** The store after one request, whatever its outcome. *)
Definition serve (db : Db) (rq : write_request) : Db :=
  match rq with
  | CheckIn attendance now db_now => snd (check_in attendance now db_now db)
  | Mark attendance teacher_id now => snd (mark_attendance attendance teacher_id now db)
  end.

Definition serve_all (db : Db) (rqs : list write_request) : Db :=
  foldl serve db rqs.

(** A record of the triple that the student created (no marker). *)
Definition self_check_in (uid : Z) (cls : string) (day : date)
    (r : Attendance.t) : Prop :=
  same_class_day uid cls day r /\ Attendance.marked_by r = None.

#[global] Instance self_check_in_dec uid cls day r :
  Decision (self_check_in uid cls day r).
Proof. unfold self_check_in. apply _. Defined.

Definition already_checked_in : HTTPException :=
  mkHTTPException HTTP_400_BAD_REQUEST "Already checked in for this class today".

Definition only_teachers : HTTPException :=
  mkHTTPException HTTP_403_FORBIDDEN "Only teachers can mark attendance".

Definition could_not_validate : HTTPException :=
  mkHTTPException HTTP_401_UNAUTHORIZED "Could not validate credentials".

(** ** The rate in exact arithmetic, for comparison *)

(** [100 * attended / total] rounded half to even to two decimals, in
    hundredths of a percent point, computed on rationals. *)
Definition exact_rate_hundredths (attended total : Z) : Z :=
  PyFloat.div_half_even (attended * 10000) total.

(** Whether the float computation of the handler lands on the double that
    stands for the exact two-decimal rate. *)
Definition rate_is_exact (attended total : Z) : bool :=
  bool_decide
    (PyFloat.round (PyFloat.mul (PyFloat.int_truediv attended total)
                                (PyFloat.of_int 100)) 2
     = PyFloat.of_decimal false (exact_rate_hundredths attended total) (-2)).

Definition rates_exact_below (bound : Z) : bool :=
  forallb (fun total => forallb (fun attended => rate_is_exact attended total)
                                (seqZ 0 (total + 1)))
          (seqZ 1 (bound - 1)).

(** ** Sample data *)

Module Sample.
Definition alice : User.t :=
  User.mk 1 "alice@example.org" "alice" (Some "Alice Ames") "x" false true 0.
(** A teacher whose account has been deactivated. *)
Definition bob : User.t :=
  User.mk 7 "bob@example.org" "bob" (Some "Bob Burke") "x" true false 0.
Definition carol : User.t :=
  User.mk 8 "carol@example.org" "carol" None "x" true true 0.

(** 09:00 and 15:30 on day 20000 of the server's calendar. *)
Definition nine_am : datetime := 20000 * seconds_per_day + 9 * 3600.
Definition half_past_three : datetime := 20000 * seconds_per_day + 15 * 3600 + 1800.

Definition users_only : Db := mkDb [alice; bob; carol] [].

Definition math101 : AttendanceCheckIn.t :=
  AttendanceCheckIn.mk "Math101" PRESENT None 1.
Definition physics201 : AttendanceCheckIn.t :=
  AttendanceCheckIn.mk "Physics201" PRESENT None 1.
Definition math101_late : AttendanceMarkByTeacher.t :=
  AttendanceMarkByTeacher.mk 1 "Math101" LATE (Some "arrived 09:20").

Definition math101_row : Attendance.t :=
  Attendance.mk 1 1 "Math101" PRESENT nine_am None None None.

(** The store once alice has checked into Math101 at 09:00. *)
Definition checked_in : Db := mkDb [alice; bob; carol] [math101_row].

(** Five records of alice on five days: three present, one late, one
    absent; and one record of another student. *)
Definition one_week : Db :=
  mkDb [alice; bob; carol]
    [Attendance.mk 1 1 "Math101" PRESENT nine_am None None None;
     Attendance.mk 2 1 "Math101" PRESENT (nine_am + seconds_per_day) None None None;
     Attendance.mk 3 4 "Math101" ABSENT (nine_am + seconds_per_day) None None (Some 8);
     Attendance.mk 4 1 "Math101" LATE (nine_am + 2 * seconds_per_day) None None (Some 8);
     Attendance.mk 5 1 "Math101" ABSENT (nine_am + 3 * seconds_per_day) None None (Some 8);
     Attendance.mk 6 1 "Math101" PRESENT (nine_am + 4 * seconds_per_day) None None None].

(** A decoder that knows three tokens: one of alice, valid until second
    1728003600; one whose [exp] has passed; one of a user who is not in
    the store. Anything else does not decode. *)
Definition decode (token : string) : gmap string Z + JWTError :=
  if decide (token = "alice.token") then inl {[ "sub" := 1; "exp" := 1728003600 ]}
  else if decide (token = "old.token") then inr ExpiredSignatureError
  else if decide (token = "ghost.token") then inl {[ "sub" := 99; "exp" := 1728003600 ]}
  else if decide (token = "nosub.token") then inl {[ "exp" := 1728003600 ]}
  else inr JWTError_malformed.
End Sample.

(** ** app/utils/jwt.py: issuing tokens *)

(** A [timedelta], and the reading of the UTC clock that
    [datetime.utcnow()] gives, both in microseconds. *)
Definition timedelta := Z.

(** [timedelta(minutes=m)] *)
Definition timedelta_minutes (m : Z) : timedelta := m * 60 * 1000000.

Section Issue.
(** [jwt.encode(claims, SECRET_KEY, algorithm=ALGORITHM)]; the value under
    ["exp"] is the [datetime] handed to it. *)
Variable jwt_encode : gmap string Z -> string.

(** [int(os.getenv("ACCESS_TOKEN_EXPIRE_MINUTES", 30))] *)
Variable ACCESS_TOKEN_EXPIRE_MINUTES : Z.

(** [create_access_token]. [if expires_delta:] is false for [None] and for
    a zero [timedelta]. *)
Definition create_access_token (data : gmap string Z)
    (expires_delta : option timedelta) (utcnow : Z) : string :=
  let to_encode := data in
  let expire :=
    match expires_delta with
    | Some delta =>
      if decide (delta = 0)
      then utcnow + timedelta_minutes ACCESS_TOKEN_EXPIRE_MINUTES
      else utcnow + delta
    | None => utcnow + timedelta_minutes ACCESS_TOKEN_EXPIRE_MINUTES
    end in
  let to_encode := <["exp" := expire]> to_encode in
  jwt_encode to_encode.
End Issue.

(** ** Conditions on a store *)

(** Every attendance row belongs to a user of the users table. *)
Definition records_reference_users (db : Db) : Prop :=
  forall r, r ∈ tbl_attendance db ->
    exists u, lookup_user db (Attendance.user_id r) = Some u.

(** Every marker of an attendance row is a user with [is_teacher] set. *)
Definition markers_are_teachers (db : Db) : Prop :=
  forall r t, r ∈ tbl_attendance db -> Attendance.marked_by r = Some t ->
    exists u, lookup_user db t = Some u /\ User.is_teacher u = true.

(** The student and class a write request is about, and the day on which
    the store stamps the row it may add. *)
Definition write_target (rq : write_request) : Z * string * date :=
  match rq with
  | CheckIn a _ db_now =>
      (AttendanceCheckIn.user_id a, AttendanceCheckIn.class_name a, func_date db_now)
  | Mark a _ now =>
      (AttendanceMarkByTeacher.user_id a, AttendanceMarkByTeacher.class_name a,
       func_date now)
  end.

(** The store stamps the row of a check-in on the day the application took
    for [today]. A mark reads the store's clock only. *)
Definition clocks_agree (rq : write_request) : Prop :=
  match rq with
  | CheckIn _ now db_now => func_date db_now = func_date now
  | Mark _ _ _ => True
  end.

(** The handler a write request is routed to. *)
Definition handle (rq : write_request) : Handler Attendance.t :=
  match rq with
  | CheckIn attendance now db_now => check_in attendance now db_now
  | Mark attendance teacher_id now => mark_attendance attendance teacher_id now
  end.

Definition user_not_found : HTTPException :=
  mkHTTPException HTTP_404_NOT_FOUND "User not found".

Definition student_not_found : HTTPException :=
  mkHTTPException HTTP_404_NOT_FOUND "Student not found".

Definition inactive_user : HTTPException :=
  mkHTTPException HTTP_400_BAD_REQUEST "Inactive user".

Definition teachers_only_action : HTTPException :=
  mkHTTPException HTTP_403_FORBIDDEN "Only teachers can perform this action".

(** ** More sample data *)

Module Scenario.
(** A row whose student (id 42) is not in the users table. *)
Definition orphan_row : Attendance.t :=
  Attendance.mk 1 42 "Math101" PRESENT Sample.nine_am None None None.

Definition with_orphan : Db := mkDb [Sample.alice; Sample.bob; Sample.carol] [orphan_row].

Definition math101_for_42 : AttendanceCheckIn.t :=
  AttendanceCheckIn.mk "Math101" PRESENT None 42.

Definition math101_mark_42 : AttendanceMarkByTeacher.t :=
  AttendanceMarkByTeacher.mk 42 "Math101" PRESENT None.

Definition next_day : datetime := Sample.nine_am + seconds_per_day.

(** An application clock eight hours ahead of the store's: 00:10 and 00:15
    on day 20001 for the application are 16:10 and 16:15 on day 20000 for
    the store. *)
Definition app_0010 : datetime := 20001 * seconds_per_day + 600.
Definition app_0015 : datetime := 20001 * seconds_per_day + 900.
Definition store_1610 : datetime := 20000 * seconds_per_day + 16 * 3600 + 600.
Definition store_1615 : datetime := 20000 * seconds_per_day + 16 * 3600 + 900.

Definition busy_morning : list write_request :=
  [CheckIn Sample.math101 Sample.nine_am Sample.nine_am;
   Mark Sample.math101_late 8 Sample.nine_am;
   Mark Sample.math101_late 1 Sample.nine_am;
   CheckIn Sample.math101 Sample.half_past_three Sample.half_past_three;
   CheckIn math101_for_42 Sample.nine_am Sample.nine_am;
   CheckIn Sample.physics201 Sample.half_past_three Sample.half_past_three].

(** A decoder for three bearer tokens: alice (student), bob (inactive
    teacher) and carol (teacher). *)
Definition decode (token : string) : gmap string Z + JWTError :=
  if decide (token = "alice") then inl {[ "sub" := 1 ]}
  else if decide (token = "bob") then inl {[ "sub" := 7 ]}
  else if decide (token = "carol") then inl {[ "sub" := 8 ]}
  else inr JWTError_malformed.

(** An encoder that gives every claim set the same token. *)
Definition encode (claims : gmap string Z) : string := "issued".
End Scenario.

(** A token format that can be read back, for trying the issuing and the
    resolving of tokens together: a claim set is written as the binary
    digits of its number in the enumeration of all claim sets, and a token
    is read by finding the claim set with that number. Reading at [clock]
    refuses a token whose ["exp"] lies in an earlier second. *)
Module Codec.



End Codec.

(** Two answers that agree up to the order of the rows listed. *)
Definition same_rows (r1 r2 : result (list Attendance.t)) : Prop :=
  match r1, r2 with
  | Return rows1, Return rows2 => rows1 ≡ₚ rows2
  | Raise e1, Raise e2 => e1 = e2
  | _, _ => False
  end.

(** * Properties *)

(** ** The handler monad *)

Lemma bind_Return {A B} (m : Handler A) (k : A -> Handler B) db a db' :
  m db = (Return a, db') -> bind m k db = k a db'.
Proof. intros E. unfold bind. now rewrite E. Qed.

Lemma bind_Raise {A B} (m : Handler A) (k : A -> Handler B) db e db' :
  m db = (Raise e, db') -> bind m k db = (Raise e, db').
Proof. intros E. unfold bind. now rewrite E. Qed.

(** ** Days *)

Lemma func_date_time_of_day (d tod : Z) :
  0 <= tod < seconds_per_day -> func_date (d * seconds_per_day + tod) = d.
Proof.
  intros H. unfold func_date, seconds_per_day in *.
  symmetry. apply (Z.div_unique_pos _ 86400 d tod); lia.
Qed.

(** ** check_in *)

(** The three ways [check_in] can end. *)
Lemma check_in_cases attendance now db_now db :
  check_in attendance now db_now db =
  match lookup_user db (AttendanceCheckIn.user_id attendance) with
  | None => (Raise (mkHTTPException HTTP_404_NOT_FOUND "User not found"), db)
  | Some _ =>
    match head (filter (same_class_day (AttendanceCheckIn.user_id attendance)
                                       (AttendanceCheckIn.class_name attendance)
                                       (func_date now)) (tbl_attendance db)) with
    | Some _ => (Raise already_checked_in, db)
    | None =>
      add_commit_refresh
        (AttendanceCheckIn.user_id attendance)
        (AttendanceCheckIn.class_name attendance)
        (AttendanceCheckIn.status attendance)
        (AttendanceCheckIn.notes attendance) None db_now db
    end
  end.
Proof.
  unfold check_in, bind, query_user_first, query_attendance_first.
  destruct (lookup_user db _); [|reflexivity].
  destruct (head _); reflexivity.
Qed.

(** The two ways [mark_attendance] can fail, and its success. *)
Lemma mark_attendance_cases attendance teacher_id now db :
  mark_attendance attendance teacher_id now db =
  match lookup_user db teacher_id with
  | None => (Raise only_teachers, db)
  | Some t =>
    if User.is_teacher t then
      match lookup_user db (AttendanceMarkByTeacher.user_id attendance) with
      | None => (Raise (mkHTTPException HTTP_404_NOT_FOUND "Student not found"), db)
      | Some _ =>
        add_commit_refresh
          (AttendanceMarkByTeacher.user_id attendance)
          (AttendanceMarkByTeacher.class_name attendance)
          (AttendanceMarkByTeacher.status attendance)
          (AttendanceMarkByTeacher.notes attendance) (Some teacher_id) now db
      end
    else (Raise only_teachers, db)
  end.
Proof.
  unfold mark_attendance, bind, query_user_first.
  destruct (lookup_user db teacher_id) as [t|]; [|reflexivity].
  destruct (User.is_teacher t); simpl; [|reflexivity].
  destruct (lookup_user db _); reflexivity.
Qed.

Lemma head_filter_None {A} (P : A -> Prop) `{forall x, Decision (P x)} (l : list A) :
  head (filter P l) = None <-> filter P l = [].
Proof. destruct (filter P l); simpl; split; congruence. Qed.

Lemma head_filter_Some_of_elem {A} (P : A -> Prop) `{forall x, Decision (P x)}
    (l : list A) x :
  x ∈ l -> P x -> exists y, head (filter P l) = Some y.
Proof.
  intros Hin HP.
  assert (Hf : x ∈ filter P l) by (apply list_elem_of_filter; auto).
  destruct (filter P l) as [|y ?]; [inversion Hf | eauto].
Qed.

(** Requests never touch the users table and only ever append to the
    ledger. *)
Lemma serve_users db rq : tbl_users (serve db rq) = tbl_users db.
Proof.
  destruct rq as [a now db_now | a t now]; simpl.
  - rewrite check_in_cases.
    destruct (lookup_user db _); [|reflexivity].
    destruct (head _); reflexivity.
  - rewrite mark_attendance_cases.
    destruct (lookup_user db t) as [u|]; [|reflexivity].
    destruct (User.is_teacher u); [|reflexivity].
    destruct (lookup_user db _); reflexivity.
Qed.

Lemma serve_appends db rq :
  tbl_attendance (serve db rq) = tbl_attendance db \/
  exists row, tbl_attendance (serve db rq) = tbl_attendance db ++ [row] /\
    match rq with
    | CheckIn a now db_now =>
        filter (same_class_day (AttendanceCheckIn.user_id a)
                  (AttendanceCheckIn.class_name a) (func_date now))
               (tbl_attendance db) = []
        /\ same_class_day (AttendanceCheckIn.user_id a)
             (AttendanceCheckIn.class_name a) (func_date db_now) row
    | Mark _ t _ => Attendance.marked_by row = Some t
    end.
Proof.
  destruct rq as [a now db_now | a t now]; simpl.
  - rewrite check_in_cases.
    destruct (lookup_user db _); [|left; reflexivity].
    destruct (head _) eqn:E; [left; reflexivity|].
    right. eexists. split; [reflexivity|]. split.
    + now apply head_filter_None.
    + repeat split.
  - rewrite mark_attendance_cases.
    destruct (lookup_user db t) as [u|]; [|left; reflexivity].
    destruct (User.is_teacher u); [|left; reflexivity].
    destruct (lookup_user db _); [|left; reflexivity].
    right. eexists. split; reflexivity.
Qed.

Lemma lookup_user_serve db rq uid : lookup_user (serve db rq) uid = lookup_user db uid.
Proof. unfold lookup_user. now rewrite serve_users. Qed.

Lemma lookup_user_serve_all rqs : forall db uid,
  lookup_user (serve_all db rqs) uid = lookup_user db uid.
Proof.
  induction rqs as [|rq rqs IH]; intros db uid; simpl; [reflexivity|].
  unfold serve_all in IH. rewrite IH. apply lookup_user_serve.
Qed.

(** Once the student has a self-created record for the triple, every run of
    requests whose check-ins are stamped on the application's day keeps
    exactly that one. *)
Lemma self_check_in_kept uid cls day rqs : forall db,
  Forall clocks_agree rqs ->
  length (filter (self_check_in uid cls day) (tbl_attendance db)) = 1%nat ->
  length (filter (self_check_in uid cls day) (tbl_attendance (serve_all db rqs))) = 1%nat.
Proof.
  induction rqs as [|rq rqs IH]; intros db Hagree H1; simpl; [exact H1|].
  apply Forall_cons in Hagree as [Hrq Hagree].
  apply IH; [exact Hagree|].
  destruct (serve_appends db rq) as [E | (row & E & Hrow)]; rewrite E; [exact H1|].
  rewrite filter_app, length_app, H1.
  assert (Hno : ~ self_check_in uid cls day row).
  { destruct rq as [a now db_now | a t now].
    - (* a check-in that succeeds is for a triple with no record yet *)
      destruct Hrow as [Hnone (Hu & Hc & Hd)]. simpl in Hrq.
      intros [(Hu' & Hc' & Hd') _].
      destruct (filter (self_check_in uid cls day) (tbl_attendance db)) as [|r0 ?] eqn:F;
        [discriminate|].
      assert (Hr0 : r0 ∈ filter (self_check_in uid cls day) (tbl_attendance db))
        by (rewrite F; left).
      apply list_elem_of_filter in Hr0 as [[Hs0 _] Hin0].
      assert (Hr1 : r0 ∈ filter (same_class_day (AttendanceCheckIn.user_id a)
                 (AttendanceCheckIn.class_name a) (func_date now)) (tbl_attendance db)).
      { apply list_elem_of_filter. split; [|exact Hin0].
        destruct Hs0 as (? & ? & ?). repeat split; congruence. }
      rewrite Hnone in Hr1. inversion Hr1.
    - (* a marked record carries its marker *)
      intros [_ Hm]. congruence. }
  rewrite filter_cons_False by exact Hno. reflexivity.
Qed.

(** A record of the triple, once in the ledger, stays in it. *)
Lemma ledger_row_kept (r : Attendance.t) rqs : forall db,
  r ∈ tbl_attendance db -> r ∈ tbl_attendance (serve_all db rqs).
Proof.
  induction rqs as [|rq rqs IH]; intros db Hin; simpl; [exact Hin|].
  apply IH.
  destruct (serve_appends db rq) as [E | (row & E & _)]; rewrite E; [exact Hin|].
  apply elem_of_app. now left.
Qed.

Lemma filter_nil_weaken {A} (P Q : A -> Prop)
    `{forall x, Decision (P x)} `{forall x, Decision (Q x)} (l : list A) :
  (forall x, Q x -> P x) -> filter P l = [] -> filter Q l = [].
Proof.
  intros HQP HP. induction l as [|x l IH]; [reflexivity|].
  destruct (decide (P x)) as [Hx|Hx].
  - rewrite (filter_cons_True P) in HP by exact Hx. discriminate.
  - rewrite (filter_cons_False P) in HP by exact Hx.
    rewrite (filter_cons_False Q) by (intros Hq; auto). auto.
Qed.

(** C2, counterexample. After carol, a teacher, has marked alice for
    Math101 at 09:00, the ledger holds no record that alice created, yet her
    first check-in for Math101 that day is refused with 400. And with the
    application's clock eight hours ahead of the store's, two check-ins of
    alice for Math101 five minutes apart, on one day of either clock, both
    return a record: the rows are stamped on day 20000 while the duplicate
    check looks for day 20001. *)
Lemma first_check_in_refused_and_second_accepted :
  filter (self_check_in 1 "Math101" 20000)
    (tbl_attendance
       (snd (mark_attendance Sample.math101_late 8 Sample.nine_am Sample.users_only)))
  = []
  /\ func_date Sample.half_past_three = 20000
  /\ check_in Sample.math101 Sample.half_past_three Sample.half_past_three
       (snd (mark_attendance Sample.math101_late 8 Sample.nine_am Sample.users_only))
     = (Raise already_checked_in,
        snd (mark_attendance Sample.math101_late 8 Sample.nine_am Sample.users_only))
  /\ func_date Scenario.app_0010 = 20001 /\ func_date Scenario.app_0015 = 20001
  /\ func_date Scenario.store_1610 = 20000 /\ func_date Scenario.store_1615 = 20000
  /\ check_in Sample.math101 Scenario.app_0010 Scenario.store_1610 Sample.users_only
     = (Return (Attendance.mk 1 1 "Math101" PRESENT Scenario.store_1610 None None None),
        mkDb (tbl_users Sample.users_only)
          [Attendance.mk 1 1 "Math101" PRESENT Scenario.store_1610 None None None])
  /\ check_in Sample.math101 Scenario.app_0015 Scenario.store_1615
       (mkDb (tbl_users Sample.users_only)
          [Attendance.mk 1 1 "Math101" PRESENT Scenario.store_1610 None None None])
     = (Return (Attendance.mk 2 1 "Math101" PRESENT Scenario.store_1615 None None None),
        mkDb (tbl_users Sample.users_only)
          [Attendance.mk 1 1 "Math101" PRESENT Scenario.store_1610 None None None;
           Attendance.mk 2 1 "Math101" PRESENT Scenario.store_1615 None None None]).
Proof. repeat split. Qed.

(** C2, as amended. For an existing user, [check_in] is refused with 400,
    the store left as it was, whenever the ledger holds any record of that
    user and class on the application's day, whoever created it. When it
    holds none, [check_in] appends exactly one record, stamped by the store
    and with no marker. If the store stamps that record on the application's
    day, it is then the one record of the triple, and after any run of
    further check-ins and marks a check-in for the same user and class on
    that day is refused with 400 and leaves the store as it was; and as long
    as every check-in of the run is stamped on its application's day, the
    ledger keeps exactly one record of the triple created by check-in. *)
Theorem check_in_once_per_class_day :
  forall db attendance now db_now u,
    let uid := AttendanceCheckIn.user_id attendance in
    let cls := AttendanceCheckIn.class_name attendance in
    let today := func_date now in
    lookup_user db uid = Some u ->
    (filter (same_class_day uid cls today) (tbl_attendance db) <> [] ->
       check_in attendance now db_now db = (Raise already_checked_in, db))
    /\ (filter (same_class_day uid cls today) (tbl_attendance db) = [] ->
        exists row,
          check_in attendance now db_now db
            = (Return row, mkDb (tbl_users db) (tbl_attendance db ++ [row]))
          /\ Attendance.user_id row = uid
          /\ Attendance.class_name row = cls
          /\ Attendance.check_in_time row = db_now
          /\ Attendance.marked_by row = None
          /\ (func_date db_now = today ->
                filter (same_class_day uid cls today) (tbl_attendance db ++ [row])
                = [row]
                /\ forall rqs again now' db_now',
                     AttendanceCheckIn.user_id again = uid ->
                     AttendanceCheckIn.class_name again = cls ->
                     func_date now' = today ->
                     let db' :=
                       serve_all (snd (check_in attendance now db_now db)) rqs in
                     check_in again now' db_now' db' = (Raise already_checked_in, db')
                     /\ (Forall clocks_agree rqs ->
                         length (filter (self_check_in uid cls today)
                                        (tbl_attendance db')) = 1%nat))).
Proof.
  intros db attendance now db_now u uid cls today Hu. split.
  - intros Hsome. rewrite check_in_cases. fold uid cls today. rewrite Hu.
    destruct (filter _ (tbl_attendance db)); [congruence | reflexivity].
  - intros Hnone.
    set (row := Attendance.mk (next_attendance_id (tbl_attendance db)) uid cls
                  (AttendanceCheckIn.status attendance) db_now None
                  (AttendanceCheckIn.notes attendance) None).
    assert (Hrun : check_in attendance now db_now db
                   = (Return row, mkDb (tbl_users db) (tbl_attendance db ++ [row]))).
    { rewrite check_in_cases. fold uid cls today. rewrite Hu.
      apply head_filter_None in Hnone. rewrite Hnone. reflexivity. }
    exists row. split; [exact Hrun|]. repeat (split; [reflexivity|]).
    intros Hday.
    assert (Hrow : self_check_in uid cls today row) by (repeat split; exact Hday).
    split.
    { rewrite filter_app, Hnone. simpl.
      rewrite filter_cons_True by (apply Hrow). reflexivity. }
    intros rqs again now' db_now' Hau Hac Hnow' db'.
    subst db'. rewrite Hrun. simpl.
    set (db1 := mkDb (tbl_users db) (tbl_attendance db ++ [row])).
    split.
    + rewrite check_in_cases, Hau, Hac, Hnow'.
      rewrite lookup_user_serve_all.
      change (lookup_user db1 uid) with (lookup_user db uid). rewrite Hu.
      assert (Hin : row ∈ tbl_attendance (serve_all db1 rqs)).
      { apply ledger_row_kept. simpl. apply elem_of_app. right. left. }
      destruct (head_filter_Some_of_elem (same_class_day uid cls today) _ row Hin)
        as [y Hy]; [apply Hrow|].
      rewrite Hy. reflexivity.
    + intros Hagree. apply self_check_in_kept; [exact Hagree|]. simpl.
      rewrite filter_app.
      assert (Hself : filter (self_check_in uid cls today) (tbl_attendance db) = []).
      { apply (filter_nil_weaken (same_class_day uid cls today)
                                 (self_check_in uid cls today)); [|exact Hnone].
        intros ? [? _]; assumption. }
      rewrite Hself. simpl. rewrite filter_cons_True by exact Hrow. reflexivity.
Qed.

Lemma check_in_once_per_class_day_witness :
  lookup_user Sample.users_only 1 = Some Sample.alice
  /\ filter (same_class_day 1 "Math101" (func_date Sample.nine_am))
            (tbl_attendance Sample.users_only) = []
  /\ func_date Sample.nine_am = func_date Sample.nine_am
  /\ func_date Sample.half_past_three = func_date Sample.nine_am
  /\ Forall clocks_agree
       [CheckIn Sample.physics201 Sample.nine_am Sample.nine_am;
        Mark Sample.math101_late 8 Sample.nine_am]
  /\ check_in Sample.math101 Sample.nine_am Sample.nine_am Sample.users_only
     = (Return Sample.math101_row, Sample.checked_in)
  /\ check_in Sample.math101 Sample.half_past_three Sample.half_past_three
       (serve_all Sample.checked_in
          [CheckIn Sample.physics201 Sample.nine_am Sample.nine_am;
           Mark Sample.math101_late 8 Sample.nine_am])
     = (Raise already_checked_in,
        serve_all Sample.checked_in
          [CheckIn Sample.physics201 Sample.nine_am Sample.nine_am;
           Mark Sample.math101_late 8 Sample.nine_am])
  /\ length (filter (self_check_in 1 "Math101" (func_date Sample.nine_am))
               (tbl_attendance
                  (serve_all Sample.checked_in
                     [CheckIn Sample.physics201 Sample.nine_am Sample.nine_am;
                      Mark Sample.math101_late 8 Sample.nine_am]))) = 1%nat.
Proof.
  assert (Hagree : Forall clocks_agree
            [CheckIn Sample.physics201 Sample.nine_am Sample.nine_am;
             Mark Sample.math101_late 8 Sample.nine_am]).
  { repeat constructor. }
  split; [reflexivity|]. split; [reflexivity|]. split; [reflexivity|].
  split; [reflexivity|]. split; [exact Hagree|].
  destruct (proj2 (check_in_once_per_class_day Sample.users_only Sample.math101
                     Sample.nine_am Sample.nine_am Sample.alice eq_refl) eq_refl)
    as (row & Hrun & _ & _ & _ & _ & Hafter).
  split; [reflexivity|].
  destruct (Hafter eq_refl) as (_ & Hagain).
  destruct (Hagain [CheckIn Sample.physics201 Sample.nine_am Sample.nine_am;
                    Mark Sample.math101_late 8 Sample.nine_am]
              Sample.math101 Sample.half_past_three Sample.half_past_three
              eq_refl eq_refl eq_refl) as (Hrefused & Hone).
  split; [exact Hrefused | exact (Hone Hagree)].
Defined.

(** ** mark_attendance *)

(** C3, counterexample. Bob (id 7) is a teacher whose account is inactive;
    his mark of alice in Math101 is not refused: it returns the new record,
    with [marked_by = 7], and appends it to the ledger. *)
Lemma mark_by_inactive_teacher_is_accepted :
  lookup_user Sample.users_only 7 = Some Sample.bob
  /\ User.is_teacher Sample.bob = true
  /\ User.is_active Sample.bob = false
  /\ mark_attendance Sample.math101_late 7 Sample.nine_am Sample.users_only
     = (Return (Attendance.mk 1 1 "Math101" LATE Sample.nine_am None
                  (Some "arrived 09:20") (Some 7)),
        mkDb (tbl_users Sample.users_only)
             [Attendance.mk 1 1 "Math101" LATE Sample.nine_am None
                (Some "arrived 09:20") (Some 7)])
  /\ fst (mark_attendance Sample.math101_late 7 Sample.nine_am Sample.users_only)
     <> Raise only_teachers.
Proof. repeat split. discriminate. Qed.

(** C3, as amended. [mark_attendance] is refused with 403 exactly when
    [teacher_id] names no user or a user whose [is_teacher] is false, and then
    the store is unchanged; [is_active] plays no part in the decision. *)
Theorem mark_forbidden_iff_not_teacher :
  forall db attendance teacher_id now,
    (lookup_user db teacher_id = None
     \/ (exists t, lookup_user db teacher_id = Some t /\ User.is_teacher t = false)
     -> mark_attendance attendance teacher_id now db = (Raise only_teachers, db))
    /\ (forall e, fst (mark_attendance attendance teacher_id now db) = Raise e ->
        status_code e = HTTP_403_FORBIDDEN ->
        lookup_user db teacher_id = None
        \/ exists t, lookup_user db teacher_id = Some t /\ User.is_teacher t = false).
Proof.
  intros db attendance teacher_id now. rewrite mark_attendance_cases. split.
  - intros [Hn | (t & Ht & Hf)].
    + now rewrite Hn.
    + now rewrite Ht, Hf.
  - intros e. destruct (lookup_user db teacher_id) as [t|]; [|now left].
    destruct (User.is_teacher t) eqn:Ht; [|right; eauto].
    destruct (lookup_user db _); simpl; intros He Hc.
    + discriminate.
    + injection He as <-. discriminate.
Qed.

Lemma mark_forbidden_iff_not_teacher_witness :
  lookup_user Sample.users_only 1 = Some Sample.alice
  /\ User.is_teacher Sample.alice = false
  /\ mark_attendance Sample.math101_late 1 Sample.nine_am Sample.users_only
     = (Raise only_teachers, Sample.users_only).
Proof.
  split; [reflexivity|]. split; [reflexivity|].
  apply (proj1 (mark_forbidden_iff_not_teacher Sample.users_only
                  Sample.math101_late 1 Sample.nine_am)).
  right. exists Sample.alice. split; reflexivity.
Defined.

(** C4. For a teacher ([is_teacher] true) and an existing student,
    [mark_attendance] succeeds whatever the ledger holds: it appends one
    record with [marked_by = teacher_id], so the number of records of the
    student for that class and day grows by one even when it was not zero. *)
Theorem mark_creates_record_without_duplicate_check :
  forall db attendance teacher_id now t s,
    let uid := AttendanceMarkByTeacher.user_id attendance in
    let cls := AttendanceMarkByTeacher.class_name attendance in
    lookup_user db teacher_id = Some t ->
    User.is_teacher t = true ->
    lookup_user db uid = Some s ->
    exists row,
      mark_attendance attendance teacher_id now db
        = (Return row, mkDb (tbl_users db) (tbl_attendance db ++ [row]))
      /\ Attendance.marked_by row = Some teacher_id
      /\ Attendance.user_id row = uid
      /\ Attendance.class_name row = cls
      /\ Attendance.status row = AttendanceMarkByTeacher.status attendance
      /\ Attendance.notes row = AttendanceMarkByTeacher.notes attendance
      /\ Attendance.check_in_time row = now
      /\ length (filter (same_class_day uid cls (func_date now))
                        (tbl_attendance db ++ [row]))
         = S (length (filter (same_class_day uid cls (func_date now))
                             (tbl_attendance db))).
Proof.
  intros db attendance teacher_id now t s uid cls Ht Hteach Hs.
  eexists. rewrite mark_attendance_cases, Ht, Hteach. fold uid. rewrite Hs.
  split; [reflexivity|]. repeat (split; [reflexivity|]).
  rewrite filter_app, length_app.
  rewrite filter_cons_True by (repeat split). simpl. lia.
Qed.

Lemma mark_creates_record_without_duplicate_check_witness :
  lookup_user Sample.checked_in 8 = Some Sample.carol
  /\ User.is_teacher Sample.carol = true
  /\ lookup_user Sample.checked_in 1 = Some Sample.alice
  /\ length (filter (same_class_day 1 "Math101" (func_date Sample.half_past_three))
                    (tbl_attendance Sample.checked_in)) = 1%nat
  /\ exists row,
       mark_attendance Sample.math101_late 8 Sample.half_past_three Sample.checked_in
         = (Return row, mkDb (tbl_users Sample.checked_in)
                             (tbl_attendance Sample.checked_in ++ [row]))
       /\ Attendance.marked_by row = Some 8
       /\ length (filter (same_class_day 1 "Math101" (func_date Sample.half_past_three))
                         (tbl_attendance Sample.checked_in ++ [row])) = 2%nat.
Proof.
  repeat (split; [reflexivity|]).
  destruct (mark_creates_record_without_duplicate_check Sample.checked_in
              Sample.math101_late 8 Sample.half_past_three Sample.carol Sample.alice
              eq_refl eq_refl eq_refl)
    as (row & Hrun & Hby & _ & _ & _ & _ & _ & Hlen).
  exists row. split; [exact Hrun|]. split; [exact Hby|]. exact Hlen.
Defined.

(** C5. When [teacher_id] is the id of a user who is not a teacher,
    [mark_attendance] raises 403 and the store, and so the ledger, is left
    exactly as it was. *)
Theorem mark_by_non_teacher_forbidden :
  forall db attendance teacher_id now t,
    lookup_user db teacher_id = Some t ->
    User.is_teacher t = false ->
    mark_attendance attendance teacher_id now db
      = (Raise (mkHTTPException 403 "Only teachers can mark attendance"), db)
    /\ tbl_attendance (snd (mark_attendance attendance teacher_id now db))
       = tbl_attendance db.
Proof.
  intros db attendance teacher_id now t Ht Hf.
  rewrite mark_attendance_cases, Ht, Hf. split; reflexivity.
Qed.

Lemma mark_by_non_teacher_forbidden_witness :
  lookup_user Sample.checked_in 1 = Some Sample.alice
  /\ User.is_teacher Sample.alice = false
  /\ mark_attendance Sample.math101_late 1 Sample.half_past_three Sample.checked_in
     = (Raise (mkHTTPException 403 "Only teachers can mark attendance"),
        Sample.checked_in).
Proof.
  split; [reflexivity|]. split; [reflexivity|].
  exact (proj1 (mark_by_non_teacher_forbidden Sample.checked_in Sample.math101_late 1
                  Sample.half_past_three Sample.alice eq_refl eq_refl)).
Defined.

(** ** Listings *)

(** C1. [get_class_attendance_today] builds the joined rows in its local
    [result] but its body ends without returning them: for every class, time
    and store the handler yields Python's [None], never a sequence. With
    alice checked into Math101 that day, [result] holds her row, joined with
    her username and full name, when the body ends; for a class without
    records [result] is empty, and in both cases [None] is what is returned. *)
Theorem get_class_attendance_today_returns_None :
  (forall class_name now db,
     get_class_attendance_today class_name now db = (Return None, db))
  /\ class_today_result "Math101" Sample.half_past_three Sample.checked_in
     = [AttendanceWithUser.mk 1 1 "Math101" PRESENT Sample.nine_am None None None
          "alice" (Some "Alice Ames")]
  /\ get_class_attendance_today "Math101" Sample.half_past_three Sample.checked_in
     = (Return None, Sample.checked_in)
  /\ class_today_result "Physics201" Sample.half_past_three Sample.checked_in = []
  /\ get_class_attendance_today "Physics201" Sample.half_past_three Sample.checked_in
     = (Return None, Sample.checked_in).
Proof. repeat split. Qed.

Lemma offset_limit_all {A} (limit : Z) (rows : list A) :
  Z.of_nat (length rows) <= limit -> offset_limit 0 limit rows = rows.
Proof.
  intros H. unfold offset_limit. simpl. apply take_ge. lia.
Qed.

Lemma offset_limit_elem {A} (skip limit : Z) (rows : list A) x :
  x ∈ offset_limit skip limit rows -> x ∈ rows.
Proof.
  unfold offset_limit. intros H.
  apply (subseteq_drop (Z.to_nat skip)). apply (subseteq_take (Z.to_nat limit)).
  exact H.
Qed.

(** C8. With [date_filter = d], [get_all_attendance] returns the page
    [skip, skip + limit) of the ledger rows that satisfy the class condition
    and whose check-in day is [d]. So every returned record has check-in day
    [d]; with the whole result on one page, a record is returned exactly when
    it is in the ledger, passes the class condition and has check-in day [d];
    and a check-in at any second of day [d] passes the date condition. *)
Theorem date_filter_selects_calendar_day :
  forall db skip limit class_name d,
    let matching :=
      filter (fun r => func_date (Attendance.check_in_time r) = d
                       /\ class_condition class_name r) (tbl_attendance db) in
    get_all_attendance skip limit class_name (Some d) db
      = (Return (offset_limit skip limit matching), db)
    /\ (forall r, r ∈ offset_limit skip limit matching ->
          func_date (Attendance.check_in_time r) = d)
    /\ (Z.of_nat (length (tbl_attendance db)) <= limit ->
        forall r, r ∈ offset_limit 0 limit matching <->
                  r ∈ tbl_attendance db /\ class_condition class_name r
                  /\ func_date (Attendance.check_in_time r) = d)
    /\ (forall r tod, 0 <= tod < seconds_per_day ->
          Attendance.check_in_time r = d * seconds_per_day + tod ->
          date_condition (Some d) r).
Proof.
  intros db skip limit class_name d matching.
  assert (Hm : forall r, r ∈ matching <->
                 r ∈ tbl_attendance db /\ class_condition class_name r
                 /\ func_date (Attendance.check_in_time r) = d).
  { intros r. unfold matching. rewrite list_elem_of_filter. tauto. }
  split; [|split; [|split]].
  - unfold get_all_attendance. simpl. rewrite list_filter_filter. reflexivity.
  - intros r Hr. apply offset_limit_elem in Hr. apply Hm in Hr. tauto.
  - intros Hlim r. rewrite offset_limit_all; [apply Hm|].
    unfold matching. pose proof (length_filter
      (fun r => func_date (Attendance.check_in_time r) = d
                /\ class_condition class_name r) (tbl_attendance db)). lia.
  - intros r tod Htod Ht. simpl. rewrite Ht. now apply func_date_time_of_day.
Qed.

Lemma date_filter_selects_calendar_day_witness :
  Z.of_nat (length (tbl_attendance Sample.checked_in)) <= 100
  /\ get_all_attendance 0 100 None (Some 20000) Sample.checked_in
     = (Return [Sample.math101_row], Sample.checked_in)
  /\ (Sample.math101_row ∈ [Sample.math101_row] <->
      Sample.math101_row ∈ tbl_attendance Sample.checked_in
      /\ class_condition None Sample.math101_row
      /\ func_date (Attendance.check_in_time Sample.math101_row) = 20000)
  /\ date_condition (Some 20000) Sample.math101_row.
Proof.
  pose proof (date_filter_selects_calendar_day Sample.checked_in 0 100 None 20000)
    as (Hrun & _ & Hall & Htod).
  split; [vm_compute; discriminate|].
  split; [exact Hrun|]. split.
  - apply (Hall ltac:(vm_compute; discriminate) Sample.math101_row).
  - apply (Htod Sample.math101_row (9 * 3600)); [vm_compute; split; congruence | reflexivity].
Defined.

(** ** Class statistics *)

(** Both branches of [get_class_attendance_stats] are one formula: on no
    records every count of the second dictionary is zero. *)
Lemma get_class_attendance_stats_response class_name db :
  let all_records :=
    filter (fun r => Attendance.class_name r = class_name) (tbl_attendance db) in
  get_class_attendance_stats class_name db =
  (Return (list_to_map
             [("class_name", VStr class_name);
              ("total_records", VInt (Z.of_nat (length all_records)));
              ("unique_students", VInt (unique_students all_records));
              ("present", VInt (count_status PRESENT all_records));
              ("absent", VInt (count_status ABSENT all_records));
              ("late", VInt (count_status LATE all_records));
              ("excused", VInt (count_status EXCUSED all_records))]), db).
Proof.
  intros all_records.
  unfold get_class_attendance_stats, bind, query_attendance_all, ret.
  fold all_records. destruct all_records; reflexivity.
Qed.

Lemma count_status_Permutation s (l l' : list Attendance.t) :
  l ≡ₚ l' -> count_status s l = count_status s l'.
Proof. intros H. unfold count_status. now rewrite H. Qed.

Lemma unique_students_Permutation (l l' : list Attendance.t) :
  l ≡ₚ l' -> unique_students l = unique_students l'.
Proof. intros H. unfold unique_students. now rewrite H. Qed.

Lemma unique_students_distinct (l : list Attendance.t) :
  unique_students l = Z.of_nat (length (remove_dups (Attendance.user_id <$> l))).
Proof.
  unfold unique_students. f_equal.
  rewrite <- (size_list_to_set (C := gset Z) (remove_dups _)) by apply NoDup_remove_dups.
  f_equal. apply set_eq. intros x.
  rewrite !elem_of_list_to_set. now rewrite elem_of_remove_dups.
Qed.

(** C7. [get_class_attendance_stats] never raises. Its [unique_students] is
    the length of a duplicate-free list of exactly the user ids that occur
    among the class's records; the whole response is the same for every
    store whose ledger is a permutation of this one; and when no record
    matches the class every count in it is zero. *)
Theorem class_stats_unique_students :
  forall db class_name,
    let records :=
      filter (fun r => Attendance.class_name r = class_name) (tbl_attendance db) in
    exists resp,
      get_class_attendance_stats class_name db = (Return resp, db)
      /\ (exists students : list Z,
            NoDup students
            /\ (forall uid, uid ∈ students <->
                  exists r, r ∈ tbl_attendance db
                            /\ Attendance.class_name r = class_name
                            /\ Attendance.user_id r = uid)
            /\ resp !! "unique_students" = Some (VInt (Z.of_nat (length students))))
      /\ (forall db', tbl_attendance db' ≡ₚ tbl_attendance db ->
            get_class_attendance_stats class_name db' = (Return resp, db'))
      /\ (records = [] ->
            resp !! "total_records" = Some (VInt 0)
            /\ resp !! "unique_students" = Some (VInt 0)
            /\ resp !! "present" = Some (VInt 0)
            /\ resp !! "absent" = Some (VInt 0)
            /\ resp !! "late" = Some (VInt 0)
            /\ resp !! "excused" = Some (VInt 0)).
Proof.
  intros db class_name records.
  eexists. split; [apply get_class_attendance_stats_response|].
  fold records. split; [|split].
  - exists (remove_dups (Attendance.user_id <$> records)).
    split; [apply NoDup_remove_dups|]. split.
    + intros uid. rewrite elem_of_remove_dups, list_elem_of_fmap. split.
      * intros (r & -> & Hr). apply list_elem_of_filter in Hr as [Hc Hin]. eauto.
      * intros (r & Hin & Hc & Hu). exists r. split; [now symmetry|].
        apply list_elem_of_filter. auto.
    + rewrite unique_students_distinct.
      generalize (Z.of_nat (length (remove_dups (Attendance.user_id <$> records)))).
      intros n. reflexivity.
  - intros db' Hperm. rewrite get_class_attendance_stats_response. simpl.
    assert (Hrec : filter (fun r => Attendance.class_name r = class_name)
                     (tbl_attendance db') ≡ₚ records)
      by (unfold records; now rewrite Hperm).
    rewrite (Permutation_length Hrec), (unique_students_Permutation _ _ Hrec).
    rewrite !(count_status_Permutation _ _ _ Hrec). reflexivity.
  - intros ->. repeat split.
Qed.

Lemma class_stats_unique_students_witness :
  tbl_attendance
    (mkDb [] [Sample.math101_row;
              Attendance.mk 2 1 "Math101" LATE Sample.nine_am None None (Some 8);
              Attendance.mk 3 4 "Math101" ABSENT Sample.nine_am None None (Some 8)])
  ≡ₚ tbl_attendance
       (mkDb [Sample.alice]
          [Attendance.mk 3 4 "Math101" ABSENT Sample.nine_am None None (Some 8);
           Sample.math101_row;
           Attendance.mk 2 1 "Math101" LATE Sample.nine_am None None (Some 8)])
  /\ exists resp,
       fst (get_class_attendance_stats "Math101"
              (mkDb [Sample.alice]
                 [Attendance.mk 3 4 "Math101" ABSENT Sample.nine_am None None (Some 8);
                  Sample.math101_row;
                  Attendance.mk 2 1 "Math101" LATE Sample.nine_am None None (Some 8)]))
       = Return resp
       /\ resp !! "unique_students" = Some (VInt 2)
       /\ fst (get_class_attendance_stats "Math101"
                 (mkDb [] [Sample.math101_row;
                           Attendance.mk 2 1 "Math101" LATE Sample.nine_am None None (Some 8);
                           Attendance.mk 3 4 "Math101" ABSENT Sample.nine_am None None (Some 8)]))
          = Return resp.
Proof.
  assert (Hperm :
    [Sample.math101_row;
     Attendance.mk 2 1 "Math101" LATE Sample.nine_am None None (Some 8);
     Attendance.mk 3 4 "Math101" ABSENT Sample.nine_am None None (Some 8)]
    ≡ₚ [Attendance.mk 3 4 "Math101" ABSENT Sample.nine_am None None (Some 8);
        Sample.math101_row;
        Attendance.mk 2 1 "Math101" LATE Sample.nine_am None None (Some 8)]).
  { symmetry.
    exact (Permutation_cons_append
             [Sample.math101_row;
              Attendance.mk 2 1 "Math101" LATE Sample.nine_am None None (Some 8)]
             (Attendance.mk 3 4 "Math101" ABSENT Sample.nine_am None None (Some 8))). }
  split; [exact Hperm|].
  destruct (class_stats_unique_students
              (mkDb [Sample.alice]
                 [Attendance.mk 3 4 "Math101" ABSENT Sample.nine_am None None (Some 8);
                  Sample.math101_row;
                  Attendance.mk 2 1 "Math101" LATE Sample.nine_am None None (Some 8)])
              "Math101") as (resp & Hrun & _ & Hinv & _).
  exists resp. split; [now rewrite Hrun|]. split.
  - injection Hrun as <-. reflexivity.
  - now rewrite (Hinv (mkDb [] _) Hperm).
Defined.

(** ** User statistics *)

(** The ways [get_user_attendance_stats] can end. *)
Lemma get_user_attendance_stats_cases user_id db :
  let all_records :=
    filter (fun r => Attendance.user_id r = user_id) (tbl_attendance db) in
  get_user_attendance_stats user_id db =
  match lookup_user db user_id with
  | None => (Raise (mkHTTPException HTTP_404_NOT_FOUND "User not found"), db)
  | Some user =>
    match all_records with
    | [] =>
      (Return (list_to_map
                 [("user_id", VInt user_id);
                  ("username", VStr (User.username user));
                  ("total_records", VInt 0);
                  ("present", VInt 0);
                  ("absent", VInt 0);
                  ("late", VInt 0);
                  ("excused", VInt 0);
                  ("attendance_rate", VInt 0)]), db)
    | _ :: _ =>
      (Return (list_to_map
                 [("user_id", VInt user_id);
                  ("username", VStr (User.username user));
                  ("full_name", optional_str (User.full_name user));
                  ("total_records", VInt (Z.of_nat (length all_records)));
                  ("present", VInt (count_status PRESENT all_records));
                  ("absent", VInt (count_status ABSENT all_records));
                  ("late", VInt (count_status LATE all_records));
                  ("excused", VInt (count_status EXCUSED all_records));
                  ("attendance_rate",
                   VStr (format_value
                           (attendance_rate (count_status PRESENT all_records)
                              (count_status LATE all_records)
                              (Z.of_nat (length all_records))) +:+ "%"))]), db)
    end
  end.
Proof.
  intros all_records.
  unfold get_user_attendance_stats, bind, query_user_first, query_attendance_all, ret.
  destruct (lookup_user db user_id); [|reflexivity].
  fold all_records. destruct all_records; reflexivity.
Qed.

(** The rate of a non-empty record set is a float, and the f-string shows
    its [repr]. *)
Lemma attendance_rate_positive present late total :
  0 < total ->
  format_value (attendance_rate present late total) =
  PyFloat.repr (PyFloat.round
                  (PyFloat.mul (PyFloat.int_truediv (present + late) total)
                               (PyFloat.of_int 100)) 2).
Proof.
  intros H. unfold attendance_rate.
  destruct (0 <? total) eqn:E; [reflexivity|]. apply Z.ltb_ge in E. lia.
Qed.

(** C10. For an existing user the response of [get_user_attendance_stats]
    has two shapes. With no records, [attendance_rate] is the integer 0 and
    there is no [full_name] key; with at least one record, [attendance_rate]
    is a string ending in a percent sign and the [full_name] key is present,
    holding the user's full name or [None]. *)
Theorem user_stats_shape_depends_on_records :
  forall db user_id u,
    lookup_user db user_id = Some u ->
    let records :=
      filter (fun r => Attendance.user_id r = user_id) (tbl_attendance db) in
    exists resp,
      get_user_attendance_stats user_id db = (Return resp, db)
      /\ (records = [] ->
            resp !! "attendance_rate" = Some (VInt 0)
            /\ resp !! "full_name" = None)
      /\ (records <> [] ->
            (exists s, resp !! "attendance_rate" = Some (VStr (s +:+ "%")))
            /\ resp !! "full_name" = Some (optional_str (User.full_name u))).
Proof.
  intros db user_id u Hu records.
  rewrite get_user_attendance_stats_cases, Hu. fold records.
  destruct records as [|r rs]; eexists; (split; [reflexivity|]).
  - split; [intros _; split; reflexivity | congruence].
  - split; [discriminate|]. intros _. split.
    + set (s := format_value
        (attendance_rate (count_status PRESENT (r :: rs)) (count_status LATE (r :: rs))
           (Z.of_nat (length (r :: rs))))).
      exists s. clearbody s. reflexivity.
    + generalize (optional_str (User.full_name u)). intros v. reflexivity.
Qed.

Lemma user_stats_shape_depends_on_records_witness :
  lookup_user Sample.users_only 1 = Some Sample.alice
  /\ lookup_user Sample.checked_in 1 = Some Sample.alice
  /\ (exists resp,
        get_user_attendance_stats 1 Sample.users_only = (Return resp, Sample.users_only)
        /\ resp !! "attendance_rate" = Some (VInt 0)
        /\ resp !! "full_name" = None)
  /\ (exists resp,
        get_user_attendance_stats 1 Sample.checked_in = (Return resp, Sample.checked_in)
        /\ (exists s, resp !! "attendance_rate" = Some (VStr (s +:+ "%")))
        /\ resp !! "full_name" = Some (VStr "Alice Ames")).
Proof.
  split; [reflexivity|]. split; [reflexivity|]. split.
  - destruct (user_stats_shape_depends_on_records Sample.users_only 1 Sample.alice
                eq_refl) as (resp & Hrun & Hempty & _).
    exists resp. split; [exact Hrun|]. exact (Hempty eq_refl).
  - destruct (user_stats_shape_depends_on_records Sample.checked_in 1 Sample.alice
                eq_refl) as (resp & Hrun & _ & Hsome).
    exists resp. split; [exact Hrun|].
    exact (Hsome ltac:(vm_compute; discriminate)).
Defined.

(** C6, counterexample. Alice exists and has no records: the handler
    answers with [attendance_rate] the integer 0, which is no string. *)
Lemma user_stats_rate_without_records_is_a_number :
  lookup_user Sample.users_only 1 = Some Sample.alice
  /\ exists resp,
       get_user_attendance_stats 1 Sample.users_only = (Return resp, Sample.users_only)
       /\ resp !! "attendance_rate" = Some (VInt 0)
       /\ forall s, resp !! "attendance_rate" <> Some (VStr s).
Proof.
  split; [reflexivity|]. eexists. split; [reflexivity|].
  split; [reflexivity|]. intros s. discriminate.
Qed.

(** C6, as amended. For every existing user the counts are taken over all
    records of that user. With at least one record, [attendance_rate] is the
    text of the float [round((present + late) / total * 100, 2)] followed by
    a percent sign; 3 present and 1 late out of 5 give ["80.0%"]. With no
    record, [attendance_rate] is the integer 0. *)
Theorem user_stats_attendance_rate :
  forall db user_id u,
    lookup_user db user_id = Some u ->
    let records :=
      filter (fun r => Attendance.user_id r = user_id) (tbl_attendance db) in
    let present := count_status PRESENT records in
    let late := count_status LATE records in
    let total := Z.of_nat (length records) in
    exists resp,
      get_user_attendance_stats user_id db = (Return resp, db)
      /\ (0 < total ->
            resp !! "attendance_rate"
            = Some (VStr (PyFloat.repr
                            (PyFloat.round
                               (PyFloat.mul (PyFloat.int_truediv (present + late) total)
                                            (PyFloat.of_int 100)) 2) +:+ "%"))
            /\ resp !! "total_records" = Some (VInt total)
            /\ resp !! "present" = Some (VInt present)
            /\ resp !! "late" = Some (VInt late))
      /\ (total = 0 ->
            resp !! "attendance_rate" = Some (VInt 0)
            /\ resp !! "total_records" = Some (VInt 0))
      /\ (present = 3 -> late = 1 -> total = 5 ->
            resp !! "attendance_rate" = Some (VStr "80.0%")).
Proof.
  intros db user_id u Hu records present late total.
  rewrite get_user_attendance_stats_cases, Hu. fold records.
  destruct records as [|r rs] eqn:E; eexists; (split; [reflexivity|]).
  - split; [|split].
    + subst total. simpl. lia.
    + intros _. split; reflexivity.
    + subst total. simpl. lia.
  - fold present late total.
    assert (Hpos : 0 < total) by (subst total; simpl; lia).
    rewrite (attendance_rate_positive _ _ _ Hpos).
    split; [|split].
    + intros _.
      generalize (PyFloat.repr
                    (PyFloat.round
                       (PyFloat.mul (PyFloat.int_truediv (present + late) total)
                                    (PyFloat.of_int 100)) 2)).
      generalize (count_status ABSENT (r :: rs)) (count_status EXCUSED (r :: rs))
                 (optional_str (User.full_name u)).
      generalize present late total. intros. repeat split.
    + lia.
    + intros -> -> ->.
      generalize (count_status ABSENT (r :: rs)) (count_status EXCUSED (r :: rs))
                 (optional_str (User.full_name u)).
      intros. vm_compute. reflexivity.
Qed.

Lemma user_stats_attendance_rate_witness :
  lookup_user Sample.one_week 1 = Some Sample.alice
  /\ count_status PRESENT
       (filter (fun r => Attendance.user_id r = 1) (tbl_attendance Sample.one_week)) = 3
  /\ count_status LATE
       (filter (fun r => Attendance.user_id r = 1) (tbl_attendance Sample.one_week)) = 1
  /\ Z.of_nat (length
       (filter (fun r => Attendance.user_id r = 1) (tbl_attendance Sample.one_week))) = 5
  /\ exists resp,
       get_user_attendance_stats 1 Sample.one_week = (Return resp, Sample.one_week)
       /\ resp !! "attendance_rate" = Some (VStr "80.0%").
Proof.
  repeat (split; [reflexivity|]).
  destruct (user_stats_attendance_rate Sample.one_week 1 Sample.alice eq_refl)
    as (resp & Hrun & _ & _ & Hex).
  exists resp. split; [exact Hrun|].
  exact (Hex eq_refl eq_refl eq_refl).
Defined.

(** The float computation and exact arithmetic: for every total below 160
    the handler's rate is the double of the exact two-decimal rate; at 23
    attended out of 160 the exact rate 14.375 rounds to 14.38 while the
    float product is below 14.375 and the handler shows 14.37. *)
Lemma rates_exact_below_160 : rates_exact_below 160 = true.
Proof. vm_compute. reflexivity. Qed.

Lemma rates_exact_below_elim bound attended total :
  rates_exact_below bound = true ->
  0 < total < bound -> 0 <= attended <= total -> rate_is_exact attended total = true.
Proof.
  intros H Ht Ha.
  unfold rates_exact_below in H. rewrite forallb_forall in H.
  specialize (H total). rewrite <- list_elem_of_In, elem_of_seqZ in H.
  specialize (H ltac:(lia)). rewrite forallb_forall in H.
  apply H. rewrite <- list_elem_of_In, elem_of_seqZ. lia.
Qed.

Lemma rate_is_exact_below_160 attended total :
  0 < total < 160 -> 0 <= attended <= total -> rate_is_exact attended total = true.
Proof. apply rates_exact_below_elim, rates_exact_below_160. Qed.

Example rate_23_of_160 :
  exact_rate_hundredths 23 160 = 1438
  /\ format_value (attendance_rate 20 3 160) = "14.37".
Proof. split; vm_compute; reflexivity. Qed.

(** ** Token resolution *)

Lemma verify_token_cases jwt_decode token db :
  verify_token jwt_decode token db =
  match jwt_decode token with
  | inr _ => (Raise could_not_validate, db)
  | inl payload =>
    match payload !! "sub" with
    | None => (Raise could_not_validate, db)
    | Some user_id => (Return user_id, db)
    end
  end.
Proof.
  unfold verify_token, verify_token_try.
  destruct (jwt_decode token) as [payload|e]; [|reflexivity].
  destruct (payload !! "sub"); reflexivity.
Qed.

Lemma get_current_user_cases jwt_decode token db :
  get_current_user jwt_decode token db =
  match jwt_decode token with
  | inr _ => (Raise could_not_validate, db)
  | inl payload =>
    match payload !! "sub" with
    | None => (Raise could_not_validate, db)
    | Some user_id =>
      match lookup_user db user_id with
      | None => (Raise (mkHTTPException HTTP_401_UNAUTHORIZED "User not found"), db)
      | Some user => (Return user, db)
      end
    end
  end.
Proof.
  unfold get_current_user, bind. rewrite verify_token_cases.
  destruct (jwt_decode token) as [payload|e]; [|reflexivity].
  destruct (payload !! "sub") as [uid|]; [|reflexivity].
  unfold query_user_first. destruct (lookup_user db uid); reflexivity.
Qed.

(** One branch of the case analysis on the token: each part of the
    statement is closed by computation, by a contradiction between the
    equations at hand, or by exhibiting the reason for rejection. *)
Ltac token_case :=
  repeat split;
  solve
    [ discriminate
    | reflexivity
    | intros _; eexists; reflexivity
    | intros (? & ?); discriminate
    | intros [(? & ?) | [(? & ? & ?) | (? & ? & ? & ? & ?)]]; congruence
    | intros _; eauto 10
    | intros Hnot; exfalso; apply Hnot; eauto 10 ].

(** C9. [get_current_user] raises, and then always with status 401 and the
    store untouched, exactly when the token does not decode (bad signature,
    malformed, or expired: any [JWTError]), or its claims have no [sub], or
    no user has the id in [sub]; in every other case it returns the user with
    that id. *)
Theorem get_current_user_unauthorized_iff :
  forall (jwt_decode : string -> gmap string Z + JWTError) token db,
    let rejected :=
      (exists e, jwt_decode token = inr e)
      \/ (exists payload, jwt_decode token = inl payload /\ payload !! "sub" = None)
      \/ (exists payload user_id,
            jwt_decode token = inl payload /\ payload !! "sub" = Some user_id
            /\ lookup_user db user_id = None) in
    (rejected <->
       exists msg, get_current_user jwt_decode token db
                   = (Raise (mkHTTPException 401 msg), db))
    /\ (rejected <-> exists e, fst (get_current_user jwt_decode token db) = Raise e)
    /\ (jwt_decode token = inr ExpiredSignatureError ->
          get_current_user jwt_decode token db = (Raise could_not_validate, db))
    /\ (~ rejected ->
          exists payload user_id user,
            jwt_decode token = inl payload /\ payload !! "sub" = Some user_id
            /\ lookup_user db user_id = Some user
            /\ get_current_user jwt_decode token db = (Return user, db)).
Proof.
  intros jwt_decode token db rejected. subst rejected.
  rewrite get_current_user_cases.
  destruct (jwt_decode token) as [payload|e] eqn:Ed.
  - destruct (payload !! "sub") as [uid|] eqn:Es.
    + destruct (lookup_user db uid) as [user|] eqn:Eu.
      * (* decoded, subject present, user found *)
        token_case.
      * (* decoded, subject present, no such user *)
        token_case.
    + (* decoded, no subject *)
      token_case.
  - (* a JWTError *)
    token_case.
Qed.

Lemma get_current_user_unauthorized_iff_witness :
  Sample.decode "old.token" = inr ExpiredSignatureError
  /\ get_current_user Sample.decode "old.token" Sample.users_only
     = (Raise could_not_validate, Sample.users_only)
  /\ (exists msg, get_current_user Sample.decode "ghost.token" Sample.users_only
                  = (Raise (mkHTTPException 401 msg), Sample.users_only))
  /\ exists payload user_id user,
       Sample.decode "alice.token" = inl payload
       /\ payload !! "sub" = Some user_id
       /\ lookup_user Sample.users_only user_id = Some user
       /\ get_current_user Sample.decode "alice.token" Sample.users_only
          = (Return user, Sample.users_only).
Proof.
  split; [reflexivity|]. split; [|split].
  - apply (get_current_user_unauthorized_iff Sample.decode "old.token" Sample.users_only).
    reflexivity.
  - apply (get_current_user_unauthorized_iff Sample.decode "ghost.token" Sample.users_only).
    right. right. exists {[ "sub" := 99; "exp" := 1728003600 ]}, 99.
    repeat split.
  - apply (get_current_user_unauthorized_iff Sample.decode "alice.token" Sample.users_only).
    assert (Hd : Sample.decode "alice.token" = inl {[ "sub" := 1; "exp" := 1728003600 ]})
      by reflexivity.
    rewrite Hd.
    intros [(e & H) | [(p & H & Hs) | (p & uid & H & Hs & Hu)]].
    + discriminate.
    + injection H as <-. vm_compute in Hs. discriminate.
    + injection H as <-. vm_compute in Hs. injection Hs as <-.
      vm_compute in Hu. discriminate.
Defined.

(** * Further properties of the handlers *)

(** ** Looking users up *)

Lemma lookup_user_Some db uid u :
  lookup_user db uid = Some u -> User.id u = uid /\ u ∈ tbl_users db.
Proof.
  unfold lookup_user. intros H.
  assert (Hin : u ∈ filter (fun u => User.id u = uid) (tbl_users db)).
  { destruct (filter _ (tbl_users db)) as [|x l]; [discriminate|].
    injection H as ->. left. }
  apply list_elem_of_filter in Hin. exact Hin.
Qed.

Lemma lookup_user_None db uid :
  lookup_user db uid = None <-> forall u, u ∈ tbl_users db -> User.id u <> uid.
Proof.
  unfold lookup_user. rewrite head_filter_None. split.
  - intros H u Hin Hid.
    assert (Hf : u ∈ filter (fun u => User.id u = uid) (tbl_users db))
      by (apply list_elem_of_filter; auto).
    rewrite H in Hf. inversion Hf.
  - intros H. destruct (filter _ (tbl_users db)) as [|x l] eqn:E; [reflexivity|].
    assert (Hx : x ∈ filter (fun u => User.id u = uid) (tbl_users db))
      by (rewrite E; left).
    apply list_elem_of_filter in Hx as [Hid Hin]. destruct (H x Hin Hid).
Qed.

(** ** One write request *)

(** A request either leaves the store as it is or appends one row, and the
    checks the handler made before appending hold of that row. *)
Lemma serve_step db rq :
  serve db rq = db
  \/ exists row,
       serve db rq = mkDb (tbl_users db) (tbl_attendance db ++ [row])
       /\ (exists u, lookup_user db (Attendance.user_id row) = Some u)
       /\ (Attendance.user_id row, Attendance.class_name row,
           func_date (Attendance.check_in_time row)) = write_target rq
       /\ match rq with
          | CheckIn a now _ =>
              Attendance.marked_by row = None
              /\ filter (same_class_day (AttendanceCheckIn.user_id a)
                           (AttendanceCheckIn.class_name a) (func_date now))
                        (tbl_attendance db) = []
          | Mark a t now =>
              Attendance.marked_by row = Some t
              /\ exists u, lookup_user db t = Some u /\ User.is_teacher u = true
          end.
Proof.
  destruct rq as [a now db_now | a t now]; simpl.
  - rewrite check_in_cases.
    destruct (lookup_user db _) as [u|] eqn:Eu; [|now left].
    destruct (head _) eqn:E; [now left|].
    right. eexists. split; [reflexivity|]. simpl. split; [eauto|].
    split; [reflexivity|]. split; [reflexivity|]. now apply head_filter_None.
  - rewrite mark_attendance_cases.
    destruct (lookup_user db t) as [u|] eqn:Et; [|now left].
    destruct (User.is_teacher u) eqn:Ht; [|now left].
    destruct (lookup_user db (AttendanceMarkByTeacher.user_id a)) as [s|] eqn:Es;
      [|now left].
    right. eexists. split; [reflexivity|]. simpl. split; [eauto|].
    split; [reflexivity|]. split; [reflexivity|]. eauto.
Qed.

(** ** check_in: every outcome *)

(** X1. [check_in] answers 404 whenever the user id is unknown, whatever the
    ledger holds; 400 when the user exists and some record, self-created or
    marked, already has that user, class and day; and otherwise appends one
    row carrying the requested status and notes, the store's time stamp, no
    check-out time and no marker. Whenever it raises, the status is 404 or 400 and the store is
    left as it was. *)
Theorem check_in_outcomes :
  forall db attendance now db_now,
    let uid := AttendanceCheckIn.user_id attendance in
    let cls := AttendanceCheckIn.class_name attendance in
    let existing :=
      filter (same_class_day uid cls (func_date now)) (tbl_attendance db) in
    (lookup_user db uid = None ->
       check_in attendance now db_now db = (Raise user_not_found, db))
    /\ (forall u, lookup_user db uid = Some u -> existing <> [] ->
          check_in attendance now db_now db = (Raise already_checked_in, db))
    /\ (forall u, lookup_user db uid = Some u -> existing = [] ->
          exists row,
            check_in attendance now db_now db
              = (Return row, mkDb (tbl_users db) (tbl_attendance db ++ [row]))
            /\ Attendance.status row = AttendanceCheckIn.status attendance
            /\ Attendance.notes row = AttendanceCheckIn.notes attendance
            /\ Attendance.check_in_time row = db_now
            /\ Attendance.check_out_time row = None
            /\ Attendance.marked_by row = None)
    /\ (forall e, fst (check_in attendance now db_now db) = Raise e ->
          snd (check_in attendance now db_now db) = db
          /\ (e = user_not_found \/ e = already_checked_in)).
Proof.
  intros db attendance now db_now uid cls existing. rewrite check_in_cases.
  fold uid cls. fold existing.
  destruct (lookup_user db uid) as [u|] eqn:Eu.
  - destruct existing as [|x l] eqn:Ex; simpl.
    + split; [discriminate|]. split; [congruence|]. split.
      * intros _ _ _. eexists. split; [reflexivity|]. repeat split.
      * intros e He. discriminate.
    + split; [discriminate|]. split; [reflexivity|]. split; [discriminate|].
      intros e He. injection He as <-. auto.
  - split; [reflexivity|]. split; [discriminate|]. split; [discriminate|].
    intros e He. injection He as <-. auto.
Qed.

Lemma check_in_outcomes_witness :
  lookup_user Scenario.with_orphan 42 = None
  /\ filter (same_class_day 42 "Math101" (func_date Sample.nine_am))
            (tbl_attendance Scenario.with_orphan) = [Scenario.orphan_row]
  /\ check_in Scenario.math101_for_42 Sample.nine_am Sample.nine_am
       Scenario.with_orphan
     = (Raise user_not_found, Scenario.with_orphan).
Proof.
  split; [reflexivity|]. split; [reflexivity|].
  exact (proj1 (check_in_outcomes Scenario.with_orphan Scenario.math101_for_42
                  Sample.nine_am Sample.nine_am) eq_refl).
Defined.

(** ** mark_attendance: every outcome *)

(** X2. When [teacher_id] is a teacher but the student id is unknown,
    [mark_attendance] answers 404 "Student not found" and writes nothing.
    The teacher is checked first: with a [teacher_id] that is no teacher the
    answer is 403 even when the student is unknown too. Whenever it raises,
    the status is 403 or 404 and the store is left as it was. *)
Theorem mark_attendance_student_not_found :
  forall db attendance teacher_id now,
    let uid := AttendanceMarkByTeacher.user_id attendance in
    (forall t, lookup_user db teacher_id = Some t -> User.is_teacher t = true ->
       lookup_user db uid = None ->
       mark_attendance attendance teacher_id now db = (Raise student_not_found, db))
    /\ (lookup_user db uid = None ->
        (lookup_user db teacher_id = None
         \/ exists t, lookup_user db teacher_id = Some t /\ User.is_teacher t = false) ->
        mark_attendance attendance teacher_id now db = (Raise only_teachers, db))
    /\ (forall e, fst (mark_attendance attendance teacher_id now db) = Raise e ->
          snd (mark_attendance attendance teacher_id now db) = db
          /\ (e = only_teachers \/ e = student_not_found)).
Proof.
  intros db attendance teacher_id now uid. rewrite mark_attendance_cases. fold uid.
  destruct (lookup_user db teacher_id) as [t|] eqn:Et.
  - destruct (User.is_teacher t) eqn:Ht.
    + destruct (lookup_user db uid) as [s|] eqn:Es; simpl.
      * split; [discriminate|]. split; [discriminate|]. intros e He. discriminate.
      * split; [reflexivity|]. split.
        -- intros _ [Hn | (t' & Ht' & Hf)]; congruence.
        -- intros e He. injection He as <-. auto.
    + split; [intros t' Ht'; injection Ht' as <-; congruence|].
      split; [reflexivity|]. intros e He. injection He as <-. auto.
  - split; [discriminate|]. split; [reflexivity|].
    intros e He. injection He as <-. auto.
Qed.

Lemma mark_attendance_student_not_found_witness :
  lookup_user Sample.users_only 8 = Some Sample.carol
  /\ User.is_teacher Sample.carol = true
  /\ lookup_user Sample.users_only 42 = None
  /\ mark_attendance Scenario.math101_mark_42 8 Sample.nine_am Sample.users_only
     = (Raise student_not_found, Sample.users_only)
  /\ mark_attendance Scenario.math101_mark_42 1 Sample.nine_am Sample.users_only
     = (Raise only_teachers, Sample.users_only).
Proof.
  split; [reflexivity|]. split; [reflexivity|]. split; [reflexivity|].
  pose proof (mark_attendance_student_not_found Sample.users_only
                Scenario.math101_mark_42 8 Sample.nine_am) as (H404 & _ & _).
  pose proof (mark_attendance_student_not_found Sample.users_only
                Scenario.math101_mark_42 1 Sample.nine_am) as (_ & H403 & _).
  split.
  - exact (H404 Sample.carol eq_refl eq_refl eq_refl).
  - apply (H403 eq_refl). right. exists Sample.alice. split; reflexivity.
Defined.

(** ** Runs of write requests *)

Lemma serve_all_cons db rq rqs :
  serve_all db (rq :: rqs) = serve_all (serve db rq) rqs.
Proof. reflexivity. Qed.

(** What a run of requests leaves behind, by induction on the run. *)
Lemma serve_all_added :
  forall rqs db,
    tbl_users (serve_all db rqs) = tbl_users db
    /\ exists added,
         tbl_attendance (serve_all db rqs) = tbl_attendance db ++ added
         /\ (length added <= length rqs)%nat
         /\ forall r, r ∈ added ->
              exists rq, rq ∈ rqs
                /\ (Attendance.user_id r, Attendance.class_name r,
                    func_date (Attendance.check_in_time r)) = write_target rq.
Proof.
  induction rqs as [|rq rqs IH]; intros db.
  - split; [reflexivity|]. exists []. rewrite app_nil_r.
    split; [reflexivity|]. split; [simpl; lia|]. intros r Hr. inversion Hr.
  - rewrite serve_all_cons.
    destruct (IH (serve db rq)) as (Hu & added & Ha & Hlen & Hreq).
    split; [now rewrite Hu, serve_users|].
    destruct (serve_step db rq) as [E | (row & E & _ & Htarget & _)].
    + exists added. rewrite Ha, E. split; [reflexivity|]. split; [simpl; lia|].
      intros r Hr. destruct (Hreq r Hr) as (rq' & Hin & Ht).
      exists rq'. split; [now right | exact Ht].
    + exists (row :: added). rewrite Ha, E. simpl.
      split; [now rewrite <- app_assoc|]. split; [lia|].
      intros r Hr. apply elem_of_cons in Hr as [-> | Hr].
      * exists rq. split; [left | exact Htarget].
      * destruct (Hreq r Hr) as (rq' & Hin & Ht).
        exists rq'. split; [now right | exact Ht].
Qed.

(** X3. No run of check-ins and marks changes the users table or touches a
    row already in the ledger: the ledger after the run is the ledger before
    it followed by the rows added, at most one per request, and each added
    row is for the student, class and day of one of the requests. *)
Theorem ledger_is_append_only :
  forall rqs db,
    tbl_users (serve_all db rqs) = tbl_users db
    /\ exists added,
         tbl_attendance (serve_all db rqs) = tbl_attendance db ++ added
         /\ (length added <= length rqs)%nat
         /\ forall r, r ∈ added ->
              exists rq, rq ∈ rqs
                /\ (Attendance.user_id r, Attendance.class_name r,
                    func_date (Attendance.check_in_time r)) = write_target rq.
Proof. exact serve_all_added. Qed.

(** X4. Every row that check-in or mark writes belongs to a user of the
    users table: a store in which every attendance row has its user keeps
    that property through any run of requests. *)
Theorem records_reference_users_kept :
  forall rqs db,
    records_reference_users db -> records_reference_users (serve_all db rqs).
Proof.
  induction rqs as [|rq rqs IH]; intros db Hinv; [exact Hinv|].
  rewrite serve_all_cons. apply IH.
  destruct (serve_step db rq) as [E | (row & E & Hu & _)]; rewrite E; [exact Hinv|].
  intros r Hr. simpl in Hr. apply elem_of_app in Hr as [Hr | Hr].
  - exact (Hinv r Hr).
  - apply list_elem_of_singleton in Hr as ->. exact Hu.
Qed.

Lemma records_reference_users_kept_witness :
  records_reference_users Sample.checked_in
  /\ records_reference_users (serve_all Sample.checked_in Scenario.busy_morning).
Proof.
  assert (H : records_reference_users Sample.checked_in).
  { intros r Hr. apply list_elem_of_singleton in Hr as ->.
    exists Sample.alice. reflexivity. }
  split; [exact H|].
  exact (records_reference_users_kept Scenario.busy_morning Sample.checked_in H).
Defined.

(** X5. A row gets a marker only from [mark_attendance], and only after the
    marker was found to be a teacher: a store in which every marker is a
    user with [is_teacher] set keeps that property through any run of
    requests. *)
Theorem markers_are_teachers_kept :
  forall rqs db,
    markers_are_teachers db -> markers_are_teachers (serve_all db rqs).
Proof.
  induction rqs as [|rq rqs IH]; intros db Hinv; [exact Hinv|].
  rewrite serve_all_cons. apply IH.
  destruct (serve_step db rq) as [E | (row & E & _ & _ & Hrq)]; rewrite E;
    [exact Hinv|].
  intros r t Hr Hm. simpl in Hr. apply elem_of_app in Hr as [Hr | Hr].
  - exact (Hinv r t Hr Hm).
  - apply list_elem_of_singleton in Hr as ->.
    destruct rq as [a now db_now | a t' now].
    + destruct Hrq as [Hnone _]. congruence.
    + destruct Hrq as [Hsome Hteacher].
      assert (t = t') by congruence. subst t'. exact Hteacher.
Qed.

Lemma markers_are_teachers_kept_witness :
  markers_are_teachers Sample.checked_in
  /\ markers_are_teachers (serve_all Sample.checked_in Scenario.busy_morning).
Proof.
  assert (H : markers_are_teachers Sample.checked_in).
  { intros r t Hr Hm. apply list_elem_of_singleton in Hr as ->. discriminate. }
  split; [exact H|].
  exact (markers_are_teachers_kept Scenario.busy_morning Sample.checked_in H).
Defined.

(** ** How requests interfere *)

Lemma filter_none {A} (P : A -> Prop) `{forall x, Decision (P x)} (l : list A) :
  (forall x, x ∈ l -> ~ P x) -> filter P l = [].
Proof.
  intros Hno. induction l as [|x l IH]; [reflexivity|].
  rewrite filter_cons_False by (apply Hno; left).
  apply IH. intros y Hy. apply Hno. now right.
Qed.

(** Requests about other students, classes or days add no row that the
    duplicate check of a check-in looks at. *)
Lemma same_class_day_rows_kept rqs db uid cls day :
  Forall (fun rq => write_target rq <> (uid, cls, day)) rqs ->
  filter (same_class_day uid cls day) (tbl_attendance (serve_all db rqs))
  = filter (same_class_day uid cls day) (tbl_attendance db).
Proof.
  intros Hother.
  destruct (serve_all_added rqs db) as (_ & added & -> & _ & Hreq).
  rewrite filter_app, (filter_none _ added), app_nil_r; [reflexivity|].
  intros r Hr (Hu & Hc & Hd).
  destruct (Hreq r Hr) as (rq & Hin & Ht).
  rewrite Forall_forall in Hother. apply (Hother rq Hin).
  rewrite <- Ht. congruence.
Qed.

(** X6. The duplicate check of [check_in] is per student, class and day:
    requests about any other student or class, or stamped by the store on
    any other day, whether they succeed or fail, do not change how a
    check-in ends. It raises the same error after
    them as before them, and it succeeds after them exactly when it would
    have succeeded before. *)
Theorem check_in_ignores_other_targets :
  forall rqs db attendance now db_now,
    Forall (fun rq => write_target rq <>
                      (AttendanceCheckIn.user_id attendance,
                       AttendanceCheckIn.class_name attendance,
                       func_date now)) rqs ->
    (forall e, fst (check_in attendance now db_now (serve_all db rqs)) = Raise e
               <-> fst (check_in attendance now db_now db) = Raise e)
    /\ ((exists row,
           fst (check_in attendance now db_now (serve_all db rqs)) = Return row)
        <-> (exists row, fst (check_in attendance now db_now db) = Return row)).
Proof.
  intros rqs db attendance now db_now Hother.
  rewrite !check_in_cases, lookup_user_serve_all.
  rewrite (same_class_day_rows_kept rqs db _ _ _ Hother).
  destruct (lookup_user db _) as [u|]; [|split; [tauto|]].
  - destruct (head _); simpl; [split; tauto|].
    split.
    + intros e. split; discriminate.
    + split; intros _; eexists; reflexivity.
  - simpl. split; intros (row & Hrow); discriminate.
Qed.

Lemma check_in_ignores_other_targets_witness :
  Forall (fun rq => write_target rq <> (1, "Physics201", func_date Scenario.next_day))
    [CheckIn Sample.math101 Scenario.next_day Scenario.next_day;
     CheckIn Sample.physics201 Sample.nine_am Sample.nine_am;
     Mark Scenario.math101_mark_42 8 Scenario.next_day]
  /\ (exists row,
        fst (check_in Sample.physics201 Scenario.next_day Scenario.next_day
               Sample.users_only)
        = Return row)
  /\ exists row,
       fst (check_in Sample.physics201 Scenario.next_day Scenario.next_day
              (serve_all Sample.users_only
                 [CheckIn Sample.math101 Scenario.next_day Scenario.next_day;
                  CheckIn Sample.physics201 Sample.nine_am Sample.nine_am;
                  Mark Scenario.math101_mark_42 8 Scenario.next_day]))
       = Return row.
Proof.
  assert (Hother :
    Forall (fun rq => write_target rq <>
                      (AttendanceCheckIn.user_id Sample.physics201,
                       AttendanceCheckIn.class_name Sample.physics201,
                       func_date Scenario.next_day))
      [CheckIn Sample.math101 Scenario.next_day Scenario.next_day;
       CheckIn Sample.physics201 Sample.nine_am Sample.nine_am;
       Mark Scenario.math101_mark_42 8 Scenario.next_day]).
  { repeat constructor; vm_compute; discriminate. }
  split; [exact Hother|].
  assert (Hbefore : exists row,
            fst (check_in Sample.physics201 Scenario.next_day Scenario.next_day
                   Sample.users_only)
            = Return row) by (eexists; reflexivity).
  split; [exact Hbefore|].
  exact (proj2 (proj2 (check_in_ignores_other_targets _ Sample.users_only
                         Sample.physics201 Scenario.next_day Scenario.next_day
                         Hother)) Hbefore).
Defined.

(** The row a successful mark appends. *)
Lemma mark_attendance_success db mark teacher_id now t s :
  lookup_user db teacher_id = Some t ->
  User.is_teacher t = true ->
  lookup_user db (AttendanceMarkByTeacher.user_id mark) = Some s ->
  exists row,
    mark_attendance mark teacher_id now db
      = (Return row, mkDb (tbl_users db) (tbl_attendance db ++ [row]))
    /\ same_class_day (AttendanceMarkByTeacher.user_id mark)
         (AttendanceMarkByTeacher.class_name mark) (func_date now) row
    /\ Attendance.marked_by row = Some teacher_id
    /\ Attendance.status row = AttendanceMarkByTeacher.status mark.
Proof.
  intros Ht Hteach Hs. eexists.
  rewrite mark_attendance_cases, Ht, Hteach, Hs.
  split; [reflexivity|]. repeat split.
Qed.

(** X7. A record that a teacher marked counts for the duplicate check: once
    a teacher has marked a student for a class, a check-in of that student
    for that class on the same day is refused with 400, also after any run
    of further requests, and the store is left as it was. *)
Theorem mark_blocks_later_check_in :
  forall db mark teacher_id now t s rqs attendance now' db_now',
    lookup_user db teacher_id = Some t ->
    User.is_teacher t = true ->
    lookup_user db (AttendanceMarkByTeacher.user_id mark) = Some s ->
    AttendanceCheckIn.user_id attendance = AttendanceMarkByTeacher.user_id mark ->
    AttendanceCheckIn.class_name attendance = AttendanceMarkByTeacher.class_name mark ->
    func_date now' = func_date now ->
    let db' := serve_all (snd (mark_attendance mark teacher_id now db)) rqs in
    check_in attendance now' db_now' db' = (Raise already_checked_in, db').
Proof.
  intros db mark teacher_id now t s rqs attendance now' db_now'
         Ht Hteach Hs Hu Hc Hd db'.
  destruct (mark_attendance_success db mark teacher_id now t s Ht Hteach Hs)
    as (row & Hrun & Hrow & _).
  subst db'. rewrite Hrun. simpl.
  set (db1 := mkDb (tbl_users db) (tbl_attendance db ++ [row])).
  rewrite check_in_cases, Hu, Hc, Hd, lookup_user_serve_all.
  change (lookup_user db1 (AttendanceMarkByTeacher.user_id mark))
    with (lookup_user db (AttendanceMarkByTeacher.user_id mark)).
  rewrite Hs.
  assert (Hin : row ∈ tbl_attendance (serve_all db1 rqs)).
  { apply ledger_row_kept. simpl. apply elem_of_app. right. left. }
  destruct (head_filter_Some_of_elem
              (same_class_day (AttendanceMarkByTeacher.user_id mark)
                 (AttendanceMarkByTeacher.class_name mark) (func_date now))
              _ row Hin Hrow) as [y Hy].
  rewrite Hy. reflexivity.
Qed.

Lemma mark_blocks_later_check_in_witness :
  lookup_user Sample.users_only 8 = Some Sample.carol
  /\ User.is_teacher Sample.carol = true
  /\ lookup_user Sample.users_only 1 = Some Sample.alice
  /\ func_date Sample.half_past_three = func_date Sample.nine_am
  /\ check_in Sample.math101 Sample.half_past_three Sample.half_past_three
       (serve_all (snd (mark_attendance Sample.math101_late 8 Sample.nine_am
                          Sample.users_only))
                  [CheckIn Sample.physics201 Sample.nine_am Sample.nine_am])
     = (Raise already_checked_in,
        serve_all (snd (mark_attendance Sample.math101_late 8 Sample.nine_am
                          Sample.users_only))
                  [CheckIn Sample.physics201 Sample.nine_am Sample.nine_am]).
Proof.
  split; [reflexivity|]. split; [reflexivity|]. split; [reflexivity|].
  split; [reflexivity|].
  exact (mark_blocks_later_check_in Sample.users_only Sample.math101_late 8
           Sample.nine_am Sample.carol Sample.alice
           [CheckIn Sample.physics201 Sample.nine_am Sample.nine_am]
           Sample.math101 Sample.half_past_three Sample.half_past_three
           eq_refl eq_refl eq_refl eq_refl eq_refl eq_refl).
Defined.

(** ** Reading a user's records *)

Lemma get_user_attendance_cases user_id db :
  get_user_attendance user_id db =
  match lookup_user db user_id with
  | None => (Raise user_not_found, db)
  | Some _ =>
    (Return (filter (fun r => Attendance.user_id r = user_id) (tbl_attendance db)), db)
  end.
Proof.
  unfold get_user_attendance, bind, query_user_first, query_attendance_all.
  destruct (lookup_user db user_id); reflexivity.
Qed.

(** The four status counts split any list of records. *)
Lemma count_status_total (l : list Attendance.t) :
  count_status PRESENT l + count_status ABSENT l
  + count_status LATE l + count_status EXCUSED l = Z.of_nat (length l).
Proof.
  unfold count_status. induction l as [|r l IH]; [reflexivity|].
  destruct (Attendance.status r) eqn:E;
    repeat match goal with
    | |- context [filter (fun r => Attendance.status r = ?s) (r :: l)] =>
        first [ rewrite (filter_cons_True (fun r => Attendance.status r = s))
                  by (simpl; congruence)
              | rewrite (filter_cons_False (fun r => Attendance.status r = s))
                  by (simpl; congruence) ]
    end; simpl length; lia.
Qed.

(** X8. [get_user_attendance] answers 404 exactly when no user has the id;
    for an existing user it returns, in ledger order, exactly the rows of
    the ledger with that [user_id], and leaves the store alone. The
    [total_records] that [get_user_attendance_stats] reports for the same
    user is the length of that list, and both handlers answer 404 for the
    same ids. *)
Theorem get_user_attendance_lists_own_records :
  forall db user_id,
    (lookup_user db user_id = None ->
       get_user_attendance user_id db = (Raise user_not_found, db)
       /\ get_user_attendance_stats user_id db = (Raise user_not_found, db))
    /\ (forall u, lookup_user db user_id = Some u ->
          exists rows resp,
            get_user_attendance user_id db = (Return rows, db)
            /\ (forall r, r ∈ rows <->
                  r ∈ tbl_attendance db /\ Attendance.user_id r = user_id)
            /\ rows `sublist_of` tbl_attendance db
            /\ get_user_attendance_stats user_id db = (Return resp, db)
            /\ resp !! "total_records" = Some (VInt (Z.of_nat (length rows)))).
Proof.
  intros db user_id.
  rewrite get_user_attendance_cases, get_user_attendance_stats_cases.
  destruct (lookup_user db user_id) as [u|].
  - split; [discriminate|]. intros u' _.
    remember (filter (fun r => Attendance.user_id r = user_id) (tbl_attendance db))
      as rows eqn:Erows.
    assert (Hmem : forall r, r ∈ rows <->
                     r ∈ tbl_attendance db /\ Attendance.user_id r = user_id).
    { intros r. rewrite Erows, list_elem_of_filter. tauto. }
    assert (Hsub : rows `sublist_of` tbl_attendance db)
      by (rewrite Erows; apply sublist_filter).
    clear Erows.
    destruct rows as [|r rs].
    + exists []. eexists. split; [reflexivity|]. split; [exact Hmem|].
      split; [exact Hsub|]. split; reflexivity.
    + exists (r :: rs). eexists. split; [reflexivity|]. split; [exact Hmem|].
      split; [exact Hsub|]. split; [reflexivity|].
      generalize (Z.of_nat (length (r :: rs))) (optional_str (User.full_name u)).
      intros total name.
      generalize (format_value
                    (attendance_rate (count_status PRESENT (r :: rs))
                       (count_status LATE (r :: rs)) total)).
      generalize (count_status PRESENT (r :: rs)) (count_status ABSENT (r :: rs))
                 (count_status LATE (r :: rs)) (count_status EXCUSED (r :: rs)).
      intros. reflexivity.
  - split; [auto|]. discriminate.
Qed.

Lemma get_user_attendance_lists_own_records_witness :
  lookup_user Sample.one_week 4 = None
  /\ get_user_attendance 4 Sample.one_week = (Raise user_not_found, Sample.one_week)
  /\ lookup_user Sample.one_week 1 = Some Sample.alice
  /\ exists rows resp,
       get_user_attendance 1 Sample.one_week = (Return rows, Sample.one_week)
       /\ length rows = 5%nat
       /\ get_user_attendance_stats 1 Sample.one_week = (Return resp, Sample.one_week)
       /\ resp !! "total_records" = Some (VInt (Z.of_nat (length rows))).
Proof.
  pose proof (get_user_attendance_lists_own_records Sample.one_week 4) as (H404 & _).
  pose proof (get_user_attendance_lists_own_records Sample.one_week 1) as (_ & Hok).
  split; [reflexivity|]. split; [exact (proj1 (H404 eq_refl))|].
  split; [reflexivity|].
  destruct (Hok Sample.alice eq_refl) as (rows & resp & Hrows & _ & _ & Hstats & Htotal).
  exists rows, resp. split; [exact Hrows|]. split; [|split; assumption].
  rewrite get_user_attendance_cases in Hrows. simpl in Hrows.
  injection Hrows as <-. reflexivity.
Defined.

(** ** What the statistics add up to *)

(** X9. In both statistics responses the four status counts are
    non-negative and add up to [total_records]: every record of the user,
    or of the class, is counted under exactly one status. *)
Theorem stats_counts_sum_to_total :
  (forall db user_id u,
     lookup_user db user_id = Some u ->
     exists resp present absent late excused total,
       get_user_attendance_stats user_id db = (Return resp, db)
       /\ resp !! "present" = Some (VInt present)
       /\ resp !! "absent" = Some (VInt absent)
       /\ resp !! "late" = Some (VInt late)
       /\ resp !! "excused" = Some (VInt excused)
       /\ resp !! "total_records" = Some (VInt total)
       /\ 0 <= present /\ 0 <= absent /\ 0 <= late /\ 0 <= excused
       /\ present + absent + late + excused = total)
  /\ (forall db class_name,
        exists resp present absent late excused total,
          get_class_attendance_stats class_name db = (Return resp, db)
          /\ resp !! "present" = Some (VInt present)
          /\ resp !! "absent" = Some (VInt absent)
          /\ resp !! "late" = Some (VInt late)
          /\ resp !! "excused" = Some (VInt excused)
          /\ resp !! "total_records" = Some (VInt total)
          /\ 0 <= present /\ 0 <= absent /\ 0 <= late /\ 0 <= excused
          /\ present + absent + late + excused = total).
Proof.
  split.
  - intros db user_id u Hu. rewrite get_user_attendance_stats_cases, Hu.
    destruct (filter _ (tbl_attendance db)) as [|r rs].
    + exists (list_to_map
                [("user_id", VInt user_id); ("username", VStr (User.username u));
                 ("total_records", VInt 0); ("present", VInt 0); ("absent", VInt 0);
                 ("late", VInt 0); ("excused", VInt 0); ("attendance_rate", VInt 0)]),
             0, 0, 0, 0, 0.
      repeat split; lia.
    + eexists. exists (count_status PRESENT (r :: rs)), (count_status ABSENT (r :: rs)),
        (count_status LATE (r :: rs)), (count_status EXCUSED (r :: rs)),
        (Z.of_nat (length (r :: rs))).
      split; [reflexivity|].
      pose proof (count_status_total (r :: rs)) as Hsum.
      assert (Hnn : forall s, 0 <= count_status s (r :: rs))
        by (intros s; unfold count_status; lia).
      pose proof (Hnn PRESENT). pose proof (Hnn ABSENT).
      pose proof (Hnn LATE). pose proof (Hnn EXCUSED). clear Hnn.
      revert Hsum H H0 H1 H2.
      generalize (format_value
                    (attendance_rate (count_status PRESENT (r :: rs))
                       (count_status LATE (r :: rs)) (Z.of_nat (length (r :: rs))))).
      generalize (Z.of_nat (length (r :: rs))) (optional_str (User.full_name u))
                 (count_status PRESENT (r :: rs)) (count_status ABSENT (r :: rs))
                 (count_status LATE (r :: rs)) (count_status EXCUSED (r :: rs)).
      intros. repeat split; assumption.
  - intros db class_name. rewrite get_class_attendance_stats_response. simpl.
    set (records := filter (fun r => Attendance.class_name r = class_name)
                      (tbl_attendance db)).
    eexists. exists (count_status PRESENT records), (count_status ABSENT records),
      (count_status LATE records), (count_status EXCUSED records),
      (Z.of_nat (length records)).
    split; [reflexivity|].
    pose proof (count_status_total records) as Hsum.
    assert (Hnn : forall s, 0 <= count_status s records)
      by (intros s; unfold count_status; lia).
    pose proof (Hnn PRESENT). pose proof (Hnn ABSENT).
    pose proof (Hnn LATE). pose proof (Hnn EXCUSED). clear Hnn.
    revert Hsum H H0 H1 H2.
    generalize (unique_students records).
    generalize (Z.of_nat (length records))
               (count_status PRESENT records) (count_status ABSENT records)
               (count_status LATE records) (count_status EXCUSED records).
    intros. repeat split; assumption.
Qed.

Lemma stats_counts_sum_to_total_witness :
  lookup_user Sample.one_week 1 = Some Sample.alice
  /\ exists resp present absent late excused total,
       get_user_attendance_stats 1 Sample.one_week = (Return resp, Sample.one_week)
       /\ resp !! "present" = Some (VInt present)
       /\ resp !! "absent" = Some (VInt absent)
       /\ resp !! "late" = Some (VInt late)
       /\ resp !! "excused" = Some (VInt excused)
       /\ resp !! "total_records" = Some (VInt total)
       /\ 0 <= present /\ 0 <= absent /\ 0 <= late /\ 0 <= excused
       /\ present + absent + late + excused = total.
Proof.
  split; [reflexivity|].
  exact (proj1 stats_counts_sum_to_total Sample.one_week 1 Sample.alice eq_refl).
Defined.

Lemma length_remove_dups_le (l : list Z) : (length (remove_dups l) <= length l)%nat.
Proof.
  apply submseteq_length, NoDup_submseteq; [apply NoDup_remove_dups|].
  intros x. now rewrite elem_of_remove_dups.
Qed.

Lemma length_remove_dups_pos (l : list Z) :
  l <> [] -> (1 <= length (remove_dups l))%nat.
Proof.
  destruct l as [|x l]; [congruence|]. intros _.
  assert (Hx : x ∈ remove_dups (x :: l)) by (apply elem_of_remove_dups; left).
  destruct (remove_dups (x :: l)); [inversion Hx | simpl; lia].
Qed.

(** X10. In the class statistics [unique_students] never exceeds
    [total_records], and it is at least 1 as soon as the class has one
    record. *)
Theorem unique_students_bounds :
  forall db class_name,
    exists resp students total,
      get_class_attendance_stats class_name db = (Return resp, db)
      /\ resp !! "unique_students" = Some (VInt students)
      /\ resp !! "total_records" = Some (VInt total)
      /\ 0 <= students <= total
      /\ (0 < total -> 1 <= students).
Proof.
  intros db class_name. rewrite get_class_attendance_stats_response. simpl.
  set (records := filter (fun r => Attendance.class_name r = class_name)
                    (tbl_attendance db)).
  eexists. exists (unique_students records), (Z.of_nat (length records)).
  split; [reflexivity|].
  assert (Hb : 0 <= unique_students records <= Z.of_nat (length records)
               /\ (0 < Z.of_nat (length records) -> 1 <= unique_students records)).
  { rewrite unique_students_distinct.
    pose proof (length_remove_dups_le (Attendance.user_id <$> records)) as Hle.
    rewrite length_fmap in Hle. split; [lia|]. intros Hpos.
    assert (Hne : Attendance.user_id <$> records <> []).
    { destruct records; [simpl in Hpos; lia | discriminate]. }
    pose proof (length_remove_dups_pos _ Hne). lia. }
  revert Hb.
  generalize (unique_students records) (Z.of_nat (length records))
             (count_status PRESENT records) (count_status ABSENT records)
             (count_status LATE records) (count_status EXCUSED records).
  intros. destruct Hb as [Hb1 Hb2]. repeat split; tauto.
Qed.

(** ** Reading back what was written *)

Lemma serve_handle db rq : serve db rq = snd (handle rq db).
Proof. destruct rq; reflexivity. Qed.

Lemma handle_Return db rq row :
  fst (handle rq db) = Return row ->
  serve db rq = mkDb (tbl_users db) (tbl_attendance db ++ [row])
  /\ exists u, lookup_user db (Attendance.user_id row) = Some u.
Proof.
  rewrite serve_handle. destruct rq as [a now db_now | a t now]; simpl.
  - rewrite check_in_cases.
    destruct (lookup_user db (AttendanceCheckIn.user_id a)) as [u|] eqn:Eu;
      [|discriminate].
    destruct (head _); [discriminate|]. simpl. intros [= <-]. simpl. eauto.
  - rewrite mark_attendance_cases.
    destruct (lookup_user db t) as [u|]; [|discriminate].
    destruct (User.is_teacher u); [|discriminate].
    destruct (lookup_user db (AttendanceMarkByTeacher.user_id a)) as [s|] eqn:Es;
      [|discriminate].
    simpl. intros [= <-]. simpl. eauto.
Qed.

(** X11. A row returned by a successful check-in or mark can be read back.
    Up to the order of rows, the student's listing afterwards is the listing
    before together with the new row, and every other user's listing, or
    its 404, is as before; and the unpaged listing for the day the row is
    stamped on contains the new row. *)
Theorem written_row_is_listed :
  forall db rq row,
    fst (handle rq db) = Return row ->
    let db' := serve db rq in
    let uid := Attendance.user_id row in
    (exists before after,
       get_user_attendance uid db = (Return before, db)
       /\ get_user_attendance uid db' = (Return after, db')
       /\ after ≡ₚ row :: before)
    /\ (forall other, other <> uid ->
          same_rows (fst (get_user_attendance other db'))
                    (fst (get_user_attendance other db)))
    /\ (forall limit, Z.of_nat (length (tbl_attendance db')) <= limit ->
          exists rows,
            get_all_attendance 0 limit None
              (Some (func_date (Attendance.check_in_time row))) db'
              = (Return rows, db')
            /\ row ∈ rows).
Proof.
  intros db rq row Hret db' uid.
  destruct (handle_Return db rq row Hret) as (Hserve & u & Hu).
  subst db'. rewrite Hserve.
  set (db1 := mkDb (tbl_users db) (tbl_attendance db ++ [row])).
  assert (Hlook : forall i, lookup_user db1 i = lookup_user db i) by reflexivity.
  split; [|split].
  - exists (filter (fun r => Attendance.user_id r = uid) (tbl_attendance db)).
    eexists. rewrite !get_user_attendance_cases, Hlook. fold uid in Hu. rewrite Hu.
    split; [reflexivity|]. split; [reflexivity|]. simpl. rewrite filter_app.
    rewrite (filter_cons_True _ row) by reflexivity. simpl.
    symmetry. apply Permutation_cons_append.
  - intros other Hother. rewrite !get_user_attendance_cases, Hlook.
    destruct (lookup_user db other); [|reflexivity]. simpl.
    rewrite filter_app.
    rewrite (filter_cons_False _ row) by (intros E; apply Hother; now rewrite <- E).
    simpl. now rewrite app_nil_r.
  - intros limit Hlimit. eexists. split; [reflexivity|].
    rewrite offset_limit_all.
    + simpl. rewrite !list_elem_of_filter. split; [reflexivity|].
      split; [exact I|]. apply elem_of_app. right. left.
    + etransitivity; [|exact Hlimit]. apply Nat2Z.inj_le.
      etransitivity; [apply length_filter|]. apply length_filter.
Qed.

Lemma written_row_is_listed_witness :
  fst (handle (Mark Sample.math101_late 8 Sample.half_past_three) Sample.checked_in)
  = Return (Attendance.mk 2 1 "Math101" LATE Sample.half_past_three None
              (Some "arrived 09:20") (Some 8))
  /\ exists before after,
       get_user_attendance 1 Sample.checked_in = (Return before, Sample.checked_in)
       /\ get_user_attendance 1
            (serve Sample.checked_in (Mark Sample.math101_late 8 Sample.half_past_three))
          = (Return after,
             serve Sample.checked_in (Mark Sample.math101_late 8 Sample.half_past_three))
       /\ after ≡ₚ Attendance.mk 2 1 "Math101" LATE Sample.half_past_three None
                      (Some "arrived 09:20") (Some 8) :: before.
Proof.
  split; [reflexivity|].
  exact (proj1 (written_row_is_listed Sample.checked_in
                  (Mark Sample.math101_late 8 Sample.half_past_three) _ eq_refl)).
Defined.

(** ** The rate at its two ends *)

(** The quotient of a positive integer by itself is the double 1.0. *)
Lemma of_ratio_same (n : positive) :
  PyFloat.of_ratio false n n = S754_finite false 4503599627370496 (-52).
Proof.
  unfold PyFloat.of_ratio, SFdiv_core_binary.
  rewrite !Z.add_0_r, (Z.sub_diag (Zdigits2 (Z.pos n))).
  change (Z.min (fexp PyFloat.prec PyFloat.emax 0) (0 - 0)) with (-53).
  change (0 - 0 - -53) with 53.
  cbv beta iota zeta.
  assert (Hdiv : Z.div_eucl (Z.shiftl (Z.pos n) 53) (Z.pos n) = (2 ^ 53, 0)).
  { rewrite Z.shiftl_mul_pow2 by lia. rewrite Z.mul_comm.
    pose proof (Z.div_mul (2 ^ 53) (Z.pos n) ltac:(lia)) as Hq.
    pose proof (Z.mod_mul (2 ^ 53) (Z.pos n) ltac:(lia)) as Hr.
    unfold Z.div in Hq. unfold Z.modulo in Hr.
    destruct (Z.div_eucl (2 ^ 53 * Z.pos n) (Z.pos n)) as [q r].
    f_equal; assumption. }
  change IntDef.Z.div_eucl with Z.div_eucl.
  rewrite Hdiv.
  assert (Hloc : new_location (Z.pos n) 0 = loc_Exact).
  { unfold new_location, new_location_even, new_location_odd.
    destruct (Z.even (Z.pos n)); reflexivity. }
  rewrite Hloc. reflexivity.
Qed.

Lemma attendance_rate_full present late total :
  0 < total -> present + late = total ->
  format_value (attendance_rate present late total) = "100.0".
Proof.
  intros Hpos Hsum. rewrite attendance_rate_positive by exact Hpos.
  rewrite Hsum. destruct total as [|n|n]; try lia.
  change (PyFloat.int_truediv (Z.pos n) (Z.pos n)) with (PyFloat.of_ratio false n n).
  rewrite of_ratio_same. vm_compute. reflexivity.
Qed.

Lemma attendance_rate_none present late total :
  0 < total -> present + late = 0 ->
  format_value (attendance_rate present late total) = "0.0".
Proof.
  intros Hpos Hsum. rewrite attendance_rate_positive by exact Hpos.
  rewrite Hsum. destruct total as [|n|n]; try lia.
  vm_compute. reflexivity.
Qed.

Lemma count_status_absent s (l : list Attendance.t) :
  Forall (fun r => Attendance.status r <> s) l -> count_status s l = 0.
Proof.
  intros H. unfold count_status. rewrite filter_none; [reflexivity|].
  rewrite Forall_forall in H. exact H.
Qed.

(** X12. For a user with at least one record: when every record is PRESENT
    or LATE the response shows ["100.0%"], and when every record is ABSENT
    or EXCUSED it shows ["0.0%"], however many records there are. *)
Theorem rate_at_its_ends :
  forall db user_id u,
    lookup_user db user_id = Some u ->
    let records :=
      filter (fun r => Attendance.user_id r = user_id) (tbl_attendance db) in
    records <> [] ->
    exists resp,
      get_user_attendance_stats user_id db = (Return resp, db)
      /\ (Forall (fun r => Attendance.status r = PRESENT \/ Attendance.status r = LATE)
                 records ->
          resp !! "attendance_rate" = Some (VStr "100.0%"))
      /\ (Forall (fun r => Attendance.status r = ABSENT \/ Attendance.status r = EXCUSED)
                 records ->
          resp !! "attendance_rate" = Some (VStr "0.0%")).
Proof.
  intros db user_id u Hu records Hne.
  rewrite get_user_attendance_stats_cases, Hu. fold records.
  destruct records as [|r rs] eqn:E; [congruence|].
  eexists. split; [reflexivity|].
  assert (Hpos : 0 < Z.of_nat (length (r :: rs))) by (simpl; lia).
  pose proof (count_status_total (r :: rs)) as Hsum.
  split; intros Hall.
  - assert (Ha : count_status ABSENT (r :: rs) = 0).
    { apply count_status_absent. eapply Forall_impl; [exact Hall|].
      simpl. intros x [Hx | Hx]; congruence. }
    assert (He : count_status EXCUSED (r :: rs) = 0).
    { apply count_status_absent. eapply Forall_impl; [exact Hall|].
      simpl. intros x [Hx | Hx]; congruence. }
    rewrite attendance_rate_full by lia.
    generalize (Z.of_nat (length (r :: rs))) (optional_str (User.full_name u))
               (count_status PRESENT (r :: rs)) (count_status ABSENT (r :: rs))
               (count_status LATE (r :: rs)) (count_status EXCUSED (r :: rs)).
    intros. reflexivity.
  - assert (Hp : count_status PRESENT (r :: rs) = 0).
    { apply count_status_absent. eapply Forall_impl; [exact Hall|].
      simpl. intros x [Hx | Hx]; congruence. }
    assert (Hl : count_status LATE (r :: rs) = 0).
    { apply count_status_absent. eapply Forall_impl; [exact Hall|].
      simpl. intros x [Hx | Hx]; congruence. }
    rewrite attendance_rate_none by lia.
    generalize (Z.of_nat (length (r :: rs))) (optional_str (User.full_name u))
               (count_status PRESENT (r :: rs)) (count_status ABSENT (r :: rs))
               (count_status LATE (r :: rs)) (count_status EXCUSED (r :: rs)).
    intros. reflexivity.
Qed.

Lemma rate_at_its_ends_witness :
  lookup_user Sample.checked_in 1 = Some Sample.alice
  /\ filter (fun r => Attendance.user_id r = 1) (tbl_attendance Sample.checked_in)
     = [Sample.math101_row]
  /\ Attendance.status Sample.math101_row = PRESENT
  /\ exists resp,
       get_user_attendance_stats 1 Sample.checked_in = (Return resp, Sample.checked_in)
       /\ resp !! "attendance_rate" = Some (VStr "100.0%").
Proof.
  split; [reflexivity|]. split; [reflexivity|]. split; [reflexivity|].
  destruct (rate_at_its_ends Sample.checked_in 1 Sample.alice eq_refl
              ltac:(vm_compute; discriminate)) as (resp & Hrun & Hfull & _).
  exists resp. split; [exact Hrun|]. apply Hfull.
  repeat constructor.
Defined.

(** ** Pages and filters of the full listing *)

Lemma get_all_attendance_eq skip limit class_name date_filter db :
  get_all_attendance skip limit class_name date_filter db
  = (Return (offset_limit skip limit
               (filter (date_condition date_filter)
                  (filter (class_condition class_name) (tbl_attendance db)))), db).
Proof. reflexivity. Qed.

(** X13. For non-negative [skip] and [limit], the number of rows
    [get_all_attendance] returns is what is left of the matching rows after
    [skip] of them, capped at [limit]: never more than [limit], and none
    when [skip] is at or beyond the number of matching rows. Every row
    returned is a ledger row that passes both conditions, and no row is
    returned more often than it is in the ledger. *)
Theorem get_all_attendance_pages :
  forall db skip limit class_name date_filter,
    0 <= skip -> 0 <= limit ->
    let matching :=
      filter (fun r => date_condition date_filter r /\ class_condition class_name r)
             (tbl_attendance db) in
    exists rows,
      get_all_attendance skip limit class_name date_filter db = (Return rows, db)
      /\ Z.of_nat (length rows)
         = Z.min limit (Z.max 0 (Z.of_nat (length matching) - skip))
      /\ Z.of_nat (length rows) <= limit
      /\ (Z.of_nat (length matching) <= skip -> rows = [])
      /\ rows ⊆+ matching
      /\ (forall r, r ∈ rows ->
            r ∈ tbl_attendance db /\ class_condition class_name r
            /\ date_condition date_filter r).
Proof.
  intros db skip limit class_name date_filter Hskip Hlimit matching.
  rewrite get_all_attendance_eq, list_filter_filter. fold matching.
  eexists. split; [reflexivity|].
  assert (Hlen : Z.of_nat (length (offset_limit skip limit matching))
                 = Z.min limit (Z.max 0 (Z.of_nat (length matching) - skip))).
  { unfold offset_limit. rewrite length_take, length_drop. lia. }
  split; [exact Hlen|]. split; [lia|]. split; [|split].
  - intros Hfew. apply length_zero_iff_nil. lia.
  - unfold offset_limit. apply sublist_submseteq.
    etransitivity; [apply sublist_take | apply sublist_drop].
  - intros r Hr. apply offset_limit_elem in Hr.
    unfold matching in Hr. apply list_elem_of_filter in Hr. tauto.
Qed.

Lemma get_all_attendance_pages_witness :
  0 <= 4 /\ 0 <= 3
  /\ exists rows,
       get_all_attendance 4 3 (Some "Math101") None Sample.one_week
         = (Return rows, Sample.one_week)
       /\ Z.of_nat (length rows) = 2
       /\ forall r, r ∈ rows -> r ∈ tbl_attendance Sample.one_week.
Proof.
  split; [lia|]. split; [lia|].
  destruct (get_all_attendance_pages Sample.one_week 4 3 (Some "Math101") None
              ltac:(lia) ltac:(lia)) as (rows & Hrows & Hlen & _ & _ & _ & Hin).
  exists rows. split; [exact Hrows|]. split; [exact Hlen|].
  intros r Hr. exact (proj1 (Hin r Hr)).
Defined.

(** X14. A non-empty [class_name] restricts [get_all_attendance] to the
    rows of that class: every row returned has that class name, and unpaged
    the rows returned are exactly the ledger rows of the class that pass the
    date condition. An empty [class_name] is no filter at all: the answer is
    the one given when the parameter is absent. *)
Theorem class_name_filter :
  forall db skip limit date_filter,
    (forall c, c <> "" ->
       exists rows,
         get_all_attendance skip limit (Some c) date_filter db = (Return rows, db)
         /\ (forall r, r ∈ rows -> Attendance.class_name r = c)
         /\ (skip = 0 -> Z.of_nat (length (tbl_attendance db)) <= limit ->
             forall r, r ∈ rows <->
               r ∈ tbl_attendance db /\ Attendance.class_name r = c
               /\ date_condition date_filter r))
    /\ get_all_attendance skip limit (Some "") date_filter db
       = get_all_attendance skip limit None date_filter db.
Proof.
  intros db skip limit date_filter. split; [|reflexivity].
  intros c Hc. rewrite get_all_attendance_eq. eexists. split; [reflexivity|].
  assert (Hcond : forall r, class_condition (Some c) r <-> Attendance.class_name r = c).
  { intros r. unfold class_condition, str_param_given.
    destruct (decide (c = "")); [contradiction | reflexivity]. }
  assert (Hm : forall r,
             r ∈ filter (date_condition date_filter)
                   (filter (class_condition (Some c)) (tbl_attendance db))
             <-> r ∈ tbl_attendance db /\ Attendance.class_name r = c
                 /\ date_condition date_filter r).
  { intros r. rewrite !list_elem_of_filter, Hcond. tauto. }
  split.
  - intros r Hr. apply offset_limit_elem in Hr. apply Hm in Hr. tauto.
  - intros -> Hlimit r. rewrite offset_limit_all; [apply Hm|].
    etransitivity; [|exact Hlimit]. apply Nat2Z.inj_le.
    etransitivity; apply length_filter.
Qed.

Lemma class_name_filter_witness :
  "Math101" <> ""
  /\ exists rows,
       get_all_attendance 0 100 (Some "Math101") (Some 20001) Sample.one_week
         = (Return rows, Sample.one_week)
       /\ forall r, r ∈ rows -> Attendance.class_name r = "Math101".
Proof.
  split; [discriminate|].
  destruct (proj1 (class_name_filter Sample.one_week 0 100 (Some 20001))
              "Math101" ltac:(discriminate)) as (rows & Hrows & Hclass & _).
  exists rows. auto.
Defined.

Lemma filter_all {A} (P : A -> Prop) `{forall x, Decision (P x)} (l : list A) :
  (forall x, P x) -> filter P l = l.
Proof.
  intros HP. induction l as [|x l IH]; [reflexivity|].
  rewrite filter_cons_True by apply HP. now rewrite IH.
Qed.

(** X15. For a non-empty class name, [total_records] of the class
    statistics is the number of rows the unpaged, undated listing returns
    for that class. *)
Theorem class_stats_total_matches_listing :
  forall db class_name limit,
    class_name <> "" ->
    Z.of_nat (length (tbl_attendance db)) <= limit ->
    exists rows resp,
      get_all_attendance 0 limit (Some class_name) None db = (Return rows, db)
      /\ get_class_attendance_stats class_name db = (Return resp, db)
      /\ resp !! "total_records" = Some (VInt (Z.of_nat (length rows))).
Proof.
  intros db class_name limit Hc Hlimit.
  rewrite get_all_attendance_eq, get_class_attendance_stats_response. simpl.
  assert (Hsame :
    filter (class_condition (Some class_name)) (tbl_attendance db)
    = filter (fun r => Attendance.class_name r = class_name) (tbl_attendance db)).
  { apply list_filter_iff. intros r. unfold class_condition, str_param_given.
    destruct (decide (class_name = "")); [contradiction | reflexivity]. }
  rewrite (filter_all (date_condition None)) by (intros; exact I).
  rewrite Hsame, offset_limit_all.
  - do 2 eexists. split; [reflexivity|]. split; [reflexivity|].
    set (records := filter _ (tbl_attendance db)).
    generalize (unique_students records) (Z.of_nat (length records))
               (count_status PRESENT records) (count_status ABSENT records)
               (count_status LATE records) (count_status EXCUSED records).
    intros. reflexivity.
  - etransitivity; [|exact Hlimit]. apply Nat2Z.inj_le, length_filter.
Qed.

Lemma class_stats_total_matches_listing_witness :
  "Math101" <> ""
  /\ Z.of_nat (length (tbl_attendance Sample.one_week)) <= 100
  /\ exists rows resp,
       get_all_attendance 0 100 (Some "Math101") None Sample.one_week
         = (Return rows, Sample.one_week)
       /\ get_class_attendance_stats "Math101" Sample.one_week
          = (Return resp, Sample.one_week)
       /\ resp !! "total_records" = Some (VInt (Z.of_nat (length rows))).
Proof.
  split; [discriminate|]. split; [vm_compute; discriminate|].
  exact (class_stats_total_matches_listing Sample.one_week "Math101" 100
           ltac:(discriminate) ltac:(vm_compute; discriminate)).
Defined.

(** ** The guards built on token resolution *)

Lemma get_current_user_store jwt_decode token db :
  snd (get_current_user jwt_decode token db) = db.
Proof.
  rewrite get_current_user_cases.
  destruct (jwt_decode token) as [payload|e]; [|reflexivity].
  destruct (payload !! "sub") as [uid|]; [|reflexivity].
  destruct (lookup_user db uid); reflexivity.
Qed.

Lemma get_current_user_Return jwt_decode token db u :
  fst (get_current_user jwt_decode token db) = Return u ->
  get_current_user jwt_decode token db = (Return u, db)
  /\ lookup_user db (User.id u) = Some u.
Proof.
  intros H. split.
  - pose proof (get_current_user_store jwt_decode token db) as Hstore.
    destruct (get_current_user jwt_decode token db) as [r db'].
    simpl in H, Hstore. now subst.
  - rewrite get_current_user_cases in H.
    destruct (jwt_decode token) as [payload|e]; [|discriminate].
    destruct (payload !! "sub") as [uid|]; [|discriminate].
    destruct (lookup_user db uid) as [u'|] eqn:Eu; [|discriminate].
    injection H as ->. destruct (lookup_user_Some _ _ _ Eu) as [-> _]. exact Eu.
Qed.

(** X16. [get_current_active_user] and [require_teacher] pass on the 401 of
    an unresolved token. For a resolved user, an inactive account is refused
    by both with 400 "Inactive user", teacher or not; an active user passes
    [get_current_active_user], and passes [require_teacher] when
    [is_teacher] is set and is refused by it with 403 otherwise. Neither
    guard changes the store. *)
Theorem require_teacher_outcomes :
  forall (jwt_decode : string -> gmap string Z + JWTError) token db,
    (forall e, fst (get_current_user jwt_decode token db) = Raise e ->
       get_current_active_user jwt_decode token db = (Raise e, db)
       /\ require_teacher jwt_decode token db = (Raise e, db))
    /\ (forall u, fst (get_current_user jwt_decode token db) = Return u ->
          (User.is_active u = false ->
             get_current_active_user jwt_decode token db = (Raise inactive_user, db)
             /\ require_teacher jwt_decode token db = (Raise inactive_user, db))
          /\ (User.is_active u = true ->
                get_current_active_user jwt_decode token db = (Return u, db)
                /\ (User.is_teacher u = true ->
                      require_teacher jwt_decode token db = (Return u, db))
                /\ (User.is_teacher u = false ->
                      require_teacher jwt_decode token db
                      = (Raise teachers_only_action, db)))).
Proof.
  intros jwt_decode token db.
  unfold require_teacher, get_current_active_user, bind.
  pose proof (get_current_user_store jwt_decode token db) as Hstore.
  destruct (get_current_user jwt_decode token db) as [[u|e] db'].
  - simpl in Hstore. subst db'. split; [discriminate|].
    intros u' [= <-]. split.
    + intros Ha. rewrite Ha. split; reflexivity.
    + intros Ha. rewrite Ha. simpl. split; [reflexivity|].
      split; intros Ht; rewrite Ht; reflexivity.
  - simpl in Hstore. subst db'. split; [|discriminate].
    intros e' [= <-]. split; reflexivity.
Qed.

Lemma require_teacher_outcomes_witness :
  fst (get_current_user Scenario.decode "bob" Sample.users_only) = Return Sample.bob
  /\ User.is_active Sample.bob = false
  /\ require_teacher Scenario.decode "bob" Sample.users_only
     = (Raise inactive_user, Sample.users_only)
  /\ fst (get_current_user Scenario.decode "alice" Sample.users_only)
     = Return Sample.alice
  /\ require_teacher Scenario.decode "alice" Sample.users_only
     = (Raise teachers_only_action, Sample.users_only)
  /\ require_teacher Scenario.decode "carol" Sample.users_only
     = (Return Sample.carol, Sample.users_only)
  /\ require_teacher Scenario.decode "mallory" Sample.users_only
     = (Raise could_not_validate, Sample.users_only).
Proof.
  pose proof (require_teacher_outcomes Scenario.decode "bob" Sample.users_only)
    as (_ & Hbob).
  pose proof (require_teacher_outcomes Scenario.decode "alice" Sample.users_only)
    as (_ & Halice).
  pose proof (require_teacher_outcomes Scenario.decode "carol" Sample.users_only)
    as (_ & Hcarol).
  pose proof (require_teacher_outcomes Scenario.decode "mallory" Sample.users_only)
    as (Hmallory & _).
  split; [reflexivity|]. split; [reflexivity|].
  split; [exact (proj2 (proj1 (Hbob Sample.bob eq_refl) eq_refl))|].
  split; [reflexivity|].
  split; [exact (proj2 (proj2 (proj2 (Halice Sample.alice eq_refl) eq_refl)) eq_refl)|].
  split; [exact (proj1 (proj2 (proj2 (Hcarol Sample.carol eq_refl) eq_refl)) eq_refl)|].
  exact (proj2 (Hmallory could_not_validate eq_refl)).
Defined.

(** X17. The two teacher checks of the code disagree on deactivated
    accounts. A token that resolves to a user with [is_teacher] set and
    [is_active] cleared is refused by [require_teacher] with 400, yet
    [mark_attendance] called with that user's id as [teacher_id] accepts any
    mark for an existing student and records the user as the marker. *)
Theorem inactive_teacher_two_paths :
  forall (jwt_decode : string -> gmap string Z + JWTError) token db t mark now s,
    fst (get_current_user jwt_decode token db) = Return t ->
    User.is_teacher t = true ->
    User.is_active t = false ->
    lookup_user db (AttendanceMarkByTeacher.user_id mark) = Some s ->
    require_teacher jwt_decode token db = (Raise inactive_user, db)
    /\ exists row,
         mark_attendance mark (User.id t) now db
           = (Return row, mkDb (tbl_users db) (tbl_attendance db ++ [row]))
         /\ Attendance.marked_by row = Some (User.id t).
Proof.
  intros jwt_decode token db t mark now s Hres Hteach Hinactive Hs.
  destruct (get_current_user_Return _ _ _ _ Hres) as [Hrun Hlook].
  split.
  - unfold require_teacher, get_current_active_user, bind.
    rewrite Hrun, Hinactive. reflexivity.
  - destruct (mark_attendance_success db mark (User.id t) now t s Hlook Hteach Hs)
      as (row & Hmark & _ & Hby & _).
    exists row. auto.
Qed.

Lemma inactive_teacher_two_paths_witness :
  fst (get_current_user Scenario.decode "bob" Sample.checked_in) = Return Sample.bob
  /\ User.is_teacher Sample.bob = true
  /\ User.is_active Sample.bob = false
  /\ lookup_user Sample.checked_in 1 = Some Sample.alice
  /\ require_teacher Scenario.decode "bob" Sample.checked_in
     = (Raise inactive_user, Sample.checked_in)
  /\ exists row,
       mark_attendance Sample.math101_late 7 Sample.half_past_three Sample.checked_in
         = (Return row, mkDb (tbl_users Sample.checked_in)
                             (tbl_attendance Sample.checked_in ++ [row]))
       /\ Attendance.marked_by row = Some 7.
Proof.
  split; [reflexivity|]. split; [reflexivity|]. split; [reflexivity|].
  split; [reflexivity|].
  exact (inactive_teacher_two_paths Scenario.decode "bob" Sample.checked_in Sample.bob
           Sample.math101_late Sample.half_past_three Sample.alice
           eq_refl eq_refl eq_refl eq_refl).
Defined.

(** ** Issuing tokens *)

(** X18. [create_access_token] hands to the encoder the caller's claims with
    ["exp"] set, replacing any ["exp"] the caller supplied and leaving every
    other claim as given. The expiry is the clock plus [expires_delta] when
    that is given and not zero, negative deltas included; with no delta, or
    a zero one, it is the clock plus the configured number of minutes. *)
Theorem create_access_token_expiry :
  forall (jwt_encode : gmap string Z -> string) minutes data expires_delta utcnow,
    exists claims,
      create_access_token jwt_encode minutes data expires_delta utcnow
        = jwt_encode claims
      /\ (forall k, k <> "exp" -> claims !! k = data !! k)
      /\ (expires_delta = None \/ expires_delta = Some 0 ->
          claims !! "exp" = Some (utcnow + minutes * 60 * 1000000))
      /\ (forall delta, expires_delta = Some delta -> delta <> 0 ->
            claims !! "exp" = Some (utcnow + delta)).
Proof.
  intros jwt_encode minutes data expires_delta utcnow.
  unfold create_access_token. eexists. split; [reflexivity|]. split; [|split].
  - intros k Hk. now rewrite lookup_insert_ne.
  - intros [-> | ->]; rewrite lookup_insert_eq; reflexivity.
  - intros delta -> Hd. rewrite lookup_insert_eq.
    destruct (decide (delta = 0)); [contradiction | reflexivity].
Qed.

Lemma create_access_token_expiry_witness :
  exists claims,
    create_access_token Scenario.encode 30 {[ "sub" := 1; "exp" := 5 ]} (Some 0)
      1700000000000000
    = Scenario.encode claims
    /\ claims !! "sub" = Some 1
    /\ claims !! "exp" = Some (1700000000000000 + 30 * 60 * 1000000).
Proof.
  destruct (create_access_token_expiry Scenario.encode 30
              {[ "sub" := 1; "exp" := 5 ]} (Some 0) 1700000000000000)
    as (claims & Htoken & Hkeep & Hdefault & _).
  exists claims. split; [exact Htoken|]. split.
  - rewrite Hkeep by discriminate. reflexivity.
  - apply Hdefault. now right.
Defined.





